(** * RFM69 radio driver (RFM69/radio.py): a shallow embedding

    The driver is one Python class, [Radio], whose methods mutate the
    object and talk to the transceiver over SPI.  The embedding threads the
    object explicitly through a small state monad.  What the driver cannot
    decide by itself is supplied by two oracles:

    - [miso k i] is the byte the chip shifts out at position [i] of the
      [k]-th SPI transfer (a transfer is full duplex: it returns as many
      bytes as it sends);
    - [clock k] is the running time, in microseconds, observed by the
      [k]-th call of [time.time()]; [time.sleep] adds to it.

    Loops that wait on the chip have no bound in the source; here they take
    [fuel] iterations at most and yield [OutOfFuel] beyond.

    Python integers are [Z]; the float seconds of [time.time()] are integer
    microseconds; [int(a / b)] on integers below 2^53 is [Z.quot];
    [round] on the quotient of two integers is rounding half to even. *)

From Stdlib Require Import ZArith List String Lia Bool.
From stdpp Require Import base gmap list.
Import ListNotations.

Local Open Scope Z_scope.

(** ** registers.py

    The module of constants is not among the sources: the driver is
    parametrised by its content.  Only the constants used below appear. *)

Class Registers := {
  REG_FIFO : Z;
  REG_OPMODE : Z;
  REG_PALEVEL : Z;
  REG_RSSICONFIG : Z;
  REG_RSSIVALUE : Z;
  REG_DIOMAPPING1 : Z;
  REG_IRQFLAGS1 : Z;
  REG_IRQFLAGS2 : Z;
  REG_SYNCVALUE2 : Z;
  REG_PACKETCONFIG2 : Z;
  REG_TESTPA1 : Z;
  REG_TESTPA2 : Z;
  RF_OPMODE_SLEEP : Z;
  RF_OPMODE_STANDBY : Z;
  RF_OPMODE_SYNTHESIZER : Z;
  RF_OPMODE_TRANSMITTER : Z;
  RF_OPMODE_RECEIVER : Z;
  RF_IRQFLAGS1_MODEREADY : Z;
  RF_IRQFLAGS2_PAYLOADREADY : Z;
  RF_IRQFLAGS2_PACKETSENT : Z;
  RF_DIOMAPPING1_DIO0_00 : Z;
  RF_DIOMAPPING1_DIO0_01 : Z;
  RF_PACKET2_RXRESTART : Z;
  RF_RSSI_START : Z;
  RF_RSSI_DONE : Z;
  RF69_MODE_SLEEP : Z;
  RF69_MODE_STANDBY : Z;
  RF69_MODE_SYNTH : Z;
  RF69_MODE_RX : Z;
  RF69_MODE_TX : Z;
  RF69_MAX_DATA_LEN : Z;
  CSMA_LIMIT : Z;
  RF69_CSMA_LIMIT_S : Z;
  RF69_BROADCAST_ADDR : Z;
  RF_LISTEN1_RESOL_RX_64 : Z;
  RF_LISTEN1_RESOL_RX_4100 : Z;
  RF_LISTEN1_RESOL_RX_262000 : Z;
  RF_LISTEN1_RESOL_IDLE_64 : Z;
  RF_LISTEN1_RESOL_IDLE_4100 : Z;
  RF_LISTEN1_RESOL_IDLE_262000 : Z
}.

(** The five operating modes are told apart by the driver. *)
Definition modes_distinct `{Registers} : Prop :=
  NoDup [RF69_MODE_SLEEP; RF69_MODE_STANDBY; RF69_MODE_SYNTH; RF69_MODE_RX; RF69_MODE_TX].

(** The listen resolutions are told apart, and none is the 0 that ends the
    candidate lists. *)
Definition resolutions_distinct `{Registers} : Prop :=
  NoDup [0; RF_LISTEN1_RESOL_RX_64; RF_LISTEN1_RESOL_RX_4100; RF_LISTEN1_RESOL_RX_262000;
         RF_LISTEN1_RESOL_IDLE_64; RF_LISTEN1_RESOL_IDLE_4100; RF_LISTEN1_RESOL_IDLE_262000].

(** The register map of the RFM69 (SX1231) as the upstream module has it;
    the concrete runs below use it. *)
Definition rfm69 : Registers := {|
  REG_FIFO := 0x00;
  REG_OPMODE := 0x01;
  REG_PALEVEL := 0x11;
  REG_RSSICONFIG := 0x23;
  REG_RSSIVALUE := 0x24;
  REG_DIOMAPPING1 := 0x25;
  REG_IRQFLAGS1 := 0x27;
  REG_IRQFLAGS2 := 0x28;
  REG_SYNCVALUE2 := 0x30;
  REG_PACKETCONFIG2 := 0x3D;
  REG_TESTPA1 := 0x5A;
  REG_TESTPA2 := 0x5C;
  RF_OPMODE_SLEEP := 0x00;
  RF_OPMODE_STANDBY := 0x04;
  RF_OPMODE_SYNTHESIZER := 0x08;
  RF_OPMODE_TRANSMITTER := 0x0C;
  RF_OPMODE_RECEIVER := 0x10;
  RF_IRQFLAGS1_MODEREADY := 0x80;
  RF_IRQFLAGS2_PAYLOADREADY := 0x04;
  RF_IRQFLAGS2_PACKETSENT := 0x08;
  RF_DIOMAPPING1_DIO0_00 := 0x00;
  RF_DIOMAPPING1_DIO0_01 := 0x40;
  RF_PACKET2_RXRESTART := 0x04;
  RF_RSSI_START := 0x01;
  RF_RSSI_DONE := 0x02;
  RF69_MODE_SLEEP := 0;
  RF69_MODE_STANDBY := 1;
  RF69_MODE_SYNTH := 2;
  RF69_MODE_RX := 3;
  RF69_MODE_TX := 4;
  RF69_MAX_DATA_LEN := 61;
  CSMA_LIMIT := -90;
  RF69_CSMA_LIMIT_S := 1;
  RF69_BROADCAST_ADDR := 255;
  RF_LISTEN1_RESOL_RX_64 := 0x10;
  RF_LISTEN1_RESOL_RX_4100 := 0x20;
  RF_LISTEN1_RESOL_RX_262000 := 0x30;
  RF_LISTEN1_RESOL_IDLE_64 := 0x40;
  RF_LISTEN1_RESOL_IDLE_4100 := 0x80;
  RF_LISTEN1_RESOL_IDLE_262000 := 0xC0
|}.

(** ** The driver object *)

(** packet.py is not among the sources either; the handler builds a packet
    from exactly these four values. *)
Record Packet := mkPacket {
  receiver : Z;
  sender : Z;
  RSSI : Z;
  data : list Z
}.

(** The attributes of [Radio] that the modelled methods use, then the world
    they act on: the level of the chip-select pin ([true] is HIGH), the
    requests sent over SPI so far (oldest first), the number of clock
    readings taken and the time spent in [time.sleep].  [mode] is [None]
    for the empty string the constructor stores. *)
Record Radio := mkRadio {
  auto_acknowledge : bool;
  isRFM69HW : bool;
  promiscuousMode : bool;
  intLock : bool;
  sendLock : bool;
  mode : option Z;
  mode_name : string;
  address : Z;
  powerLevel : Z;
  packets : list Packet;
  acks : gmap Z Z;
  _rxListenResolution : Z;
  _rxListenCoef : Z;
  _idleListenResolution : Z;
  _idleListenCoef : Z;
  _listenCycleDurationUs : Z;
  selPin : bool;
  spi_log : list (list Z);
  time_reads : nat;
  slept : Z
}.

Definition set_intLock (v : bool) (s : Radio) : Radio :=
  mkRadio (auto_acknowledge s) (isRFM69HW s) (promiscuousMode s) v (sendLock s) (mode s)
    (mode_name s) (address s) (powerLevel s) (packets s) (acks s) (_rxListenResolution
    s) (_rxListenCoef s) (_idleListenResolution s) (_idleListenCoef s)
    (_listenCycleDurationUs s) (selPin s) (spi_log s) (time_reads s) (slept s).

Definition set_sendLock (v : bool) (s : Radio) : Radio :=
  mkRadio (auto_acknowledge s) (isRFM69HW s) (promiscuousMode s) (intLock s) v (mode s)
    (mode_name s) (address s) (powerLevel s) (packets s) (acks s) (_rxListenResolution
    s) (_rxListenCoef s) (_idleListenResolution s) (_idleListenCoef s)
    (_listenCycleDurationUs s) (selPin s) (spi_log s) (time_reads s) (slept s).

Definition set_mode (v : option Z) (s : Radio) : Radio :=
  mkRadio (auto_acknowledge s) (isRFM69HW s) (promiscuousMode s) (intLock s) (sendLock
    s) v (mode_name s) (address s) (powerLevel s) (packets s) (acks s)
    (_rxListenResolution s) (_rxListenCoef s) (_idleListenResolution s) (_idleListenCoef
    s) (_listenCycleDurationUs s) (selPin s) (spi_log s) (time_reads s) (slept s).

Definition set_mode_name (v : string) (s : Radio) : Radio :=
  mkRadio (auto_acknowledge s) (isRFM69HW s) (promiscuousMode s) (intLock s) (sendLock
    s) (mode s) v (address s) (powerLevel s) (packets s) (acks s) (_rxListenResolution
    s) (_rxListenCoef s) (_idleListenResolution s) (_idleListenCoef s)
    (_listenCycleDurationUs s) (selPin s) (spi_log s) (time_reads s) (slept s).

Definition set_powerLevel (v : Z) (s : Radio) : Radio :=
  mkRadio (auto_acknowledge s) (isRFM69HW s) (promiscuousMode s) (intLock s) (sendLock
    s) (mode s) (mode_name s) (address s) v (packets s) (acks s) (_rxListenResolution s)
    (_rxListenCoef s) (_idleListenResolution s) (_idleListenCoef s)
    (_listenCycleDurationUs s) (selPin s) (spi_log s) (time_reads s) (slept s).

Definition set_packets (v : list Packet) (s : Radio) : Radio :=
  mkRadio (auto_acknowledge s) (isRFM69HW s) (promiscuousMode s) (intLock s) (sendLock
    s) (mode s) (mode_name s) (address s) (powerLevel s) v (acks s) (_rxListenResolution
    s) (_rxListenCoef s) (_idleListenResolution s) (_idleListenCoef s)
    (_listenCycleDurationUs s) (selPin s) (spi_log s) (time_reads s) (slept s).

Definition set_acks (v : gmap Z Z) (s : Radio) : Radio :=
  mkRadio (auto_acknowledge s) (isRFM69HW s) (promiscuousMode s) (intLock s) (sendLock
    s) (mode s) (mode_name s) (address s) (powerLevel s) (packets s) v
    (_rxListenResolution s) (_rxListenCoef s) (_idleListenResolution s) (_idleListenCoef
    s) (_listenCycleDurationUs s) (selPin s) (spi_log s) (time_reads s) (slept s).

Definition set_rxListenResolution (v : Z) (s : Radio) : Radio :=
  mkRadio (auto_acknowledge s) (isRFM69HW s) (promiscuousMode s) (intLock s) (sendLock
    s) (mode s) (mode_name s) (address s) (powerLevel s) (packets s) (acks s) v
    (_rxListenCoef s) (_idleListenResolution s) (_idleListenCoef s)
    (_listenCycleDurationUs s) (selPin s) (spi_log s) (time_reads s) (slept s).

Definition set_rxListenCoef (v : Z) (s : Radio) : Radio :=
  mkRadio (auto_acknowledge s) (isRFM69HW s) (promiscuousMode s) (intLock s) (sendLock
    s) (mode s) (mode_name s) (address s) (powerLevel s) (packets s) (acks s)
    (_rxListenResolution s) v (_idleListenResolution s) (_idleListenCoef s)
    (_listenCycleDurationUs s) (selPin s) (spi_log s) (time_reads s) (slept s).

Definition set_idleListenResolution (v : Z) (s : Radio) : Radio :=
  mkRadio (auto_acknowledge s) (isRFM69HW s) (promiscuousMode s) (intLock s) (sendLock
    s) (mode s) (mode_name s) (address s) (powerLevel s) (packets s) (acks s)
    (_rxListenResolution s) (_rxListenCoef s) v (_idleListenCoef s)
    (_listenCycleDurationUs s) (selPin s) (spi_log s) (time_reads s) (slept s).

Definition set_idleListenCoef (v : Z) (s : Radio) : Radio :=
  mkRadio (auto_acknowledge s) (isRFM69HW s) (promiscuousMode s) (intLock s) (sendLock
    s) (mode s) (mode_name s) (address s) (powerLevel s) (packets s) (acks s)
    (_rxListenResolution s) (_rxListenCoef s) (_idleListenResolution s) v
    (_listenCycleDurationUs s) (selPin s) (spi_log s) (time_reads s) (slept s).

Definition set_listenCycleDurationUs (v : Z) (s : Radio) : Radio :=
  mkRadio (auto_acknowledge s) (isRFM69HW s) (promiscuousMode s) (intLock s) (sendLock
    s) (mode s) (mode_name s) (address s) (powerLevel s) (packets s) (acks s)
    (_rxListenResolution s) (_rxListenCoef s) (_idleListenResolution s) (_idleListenCoef
    s) v (selPin s) (spi_log s) (time_reads s) (slept s).

Definition set_selPin (v : bool) (s : Radio) : Radio :=
  mkRadio (auto_acknowledge s) (isRFM69HW s) (promiscuousMode s) (intLock s) (sendLock
    s) (mode s) (mode_name s) (address s) (powerLevel s) (packets s) (acks s)
    (_rxListenResolution s) (_rxListenCoef s) (_idleListenResolution s) (_idleListenCoef
    s) (_listenCycleDurationUs s) v (spi_log s) (time_reads s) (slept s).

Definition set_spi_log (v : list (list Z)) (s : Radio) : Radio :=
  mkRadio (auto_acknowledge s) (isRFM69HW s) (promiscuousMode s) (intLock s) (sendLock
    s) (mode s) (mode_name s) (address s) (powerLevel s) (packets s) (acks s)
    (_rxListenResolution s) (_rxListenCoef s) (_idleListenResolution s) (_idleListenCoef
    s) (_listenCycleDurationUs s) (selPin s) v (time_reads s) (slept s).

Definition set_time_reads (v : nat) (s : Radio) : Radio :=
  mkRadio (auto_acknowledge s) (isRFM69HW s) (promiscuousMode s) (intLock s) (sendLock
    s) (mode s) (mode_name s) (address s) (powerLevel s) (packets s) (acks s)
    (_rxListenResolution s) (_rxListenCoef s) (_idleListenResolution s) (_idleListenCoef
    s) (_listenCycleDurationUs s) (selPin s) (spi_log s) v (slept s).

Definition set_slept (v : Z) (s : Radio) : Radio :=
  mkRadio (auto_acknowledge s) (isRFM69HW s) (promiscuousMode s) (intLock s) (sendLock
    s) (mode s) (mode_name s) (address s) (powerLevel s) (packets s) (acks s)
    (_rxListenResolution s) (_rxListenCoef s) (_idleListenResolution s) (_idleListenCoef
    s) (_listenCycleDurationUs s) (selPin s) (spi_log s) (time_reads s) v.

(** ** The monad of the methods

    A method takes the object and ends in one of three ways: it returns a
    value, it raises, or (in the model only) it exhausts the fuel of a
    waiting loop. *)

Inductive Exn := ZeroDivisionError | AssertionError | ValueError.

Inductive Res (A : Type) : Type :=
| Ret (a : A) (s : Radio)
| Raise (e : Exn) (s : Radio)
| OutOfFuel.

Arguments Ret {A} a s.
Arguments Raise {A} e s.
Arguments OutOfFuel {A}.

Definition M (A : Type) : Type := Radio -> Res A.

Definition ret {A} (a : A) : M A := fun s => Ret a s.

Definition bind {A B} (m : M A) (k : A -> M B) : M B :=
  fun s =>
    match m s with
    | Ret a s' => k a s'
    | Raise e s' => Raise e s'
    | OutOfFuel => OutOfFuel
    end.

Definition raise {A} (e : Exn) : M A := fun s => Raise e s.
Definition out_of_fuel {A} : M A := fun _ => OutOfFuel.
Definition gets {A} (f : Radio -> A) : M A := fun s => Ret (f s) s.
Definition modify (f : Radio -> Radio) : M unit := fun s => Ret tt (f s).
Definition when (b : bool) (m : M unit) : M unit := if b then m else ret tt.

Declare Scope radio_scope.
Delimit Scope radio_scope with radio.
Notation "x <- m ;; k" := (bind m (fun x => k))
  (at level 100, m at next level, k at level 200, right associativity) : radio_scope.
Notation "m ;; k" := (bind m (fun _ => k))
  (at level 100, k at level 200, right associativity) : radio_scope.
Local Open Scope radio_scope.

(** [while cond: body], at most [fuel] iterations. *)
Fixpoint while (fuel : nat) (cond : M bool) (body : M unit) : M unit :=
  b <- cond ;;
  if b then
    match fuel with
    | O => out_of_fuel
    | S n => body ;; while n cond body
    end
  else ret tt.

(** A [while] whose body may [return r] from the enclosing method
    ([Some r]); the loop ends with [None] when its condition fails. *)
Fixpoint while_return {R} (fuel : nat) (cond : M bool) (body : M (option R))
  : M (option R) :=
  b <- cond ;;
  if b then
    match fuel with
    | O => out_of_fuel
    | S n =>
        r <- body ;;
        match r with
        | Some x => ret (Some x)
        | None => while_return n cond body
        end
    end
  else ret None.

(** ** Python helpers *)

(** [self.mode == m] *)
Definition mode_is (cur : option Z) (m : Z) : bool :=
  match cur with
  | Some c => c =? m
  | None => false
  end.

(** [round(n / d)] for integers [n] and [d > 0]: nearest integer, a tie
    going to the even one. *)
Definition py_round_div (n d : Z) : Z :=
  let q := n / d in
  let r := n mod d in
  if 2 * r <? d then q
  else if d <? 2 * r then q + 1
  else if Z.even q then q else q + 1.

(** [buff[0:n]] *)
Definition py_slice0 {A} (n : Z) (l : list A) : list A :=
  if 0 <=? n then firstn (Z.to_nat n) l
  else firstn (Z.to_nat (Z.of_nat (length l) + n)) l.

(** [len(x)] *)
Definition len {A} (l : list A) : Z := Z.of_nat (length l).

(** The keyword arguments of [send]; [None] is an absent keyword. *)
Record SendKwargs := mkSendKwargs {
  kw_attempts : option Z;
  kw_wait : option Z;
  kw_require_ack : option bool
}.

(** [dict.setdefault(k, v)] *)
Definition setdefault (k v : Z) (d : gmap Z Z) : gmap Z Z :=
  match d !! k with
  | Some _ => d
  | None => <[k := v]> d
  end.

(** ** The methods of [Radio] *)

Section Driver.

Context `{Registers}.
Variable miso : nat -> nat -> Z.
Variable clock : nat -> Z.
Variable fuel : nat.

(** *** Pins, bus and clock *)

(** [GPIO.output(self.selPin, GPIO.LOW)] *)
Definition select : M unit := modify (set_selPin false).

(** [GPIO.output(self.selPin, GPIO.HIGH)] *)
Definition unselect : M unit := modify (set_selPin true).

(** [self.spi.xfer] and [self.spi.xfer2]: the request is recorded and the
    chip answers one byte per byte sent. *)
Definition spi_xfer (req : list Z) : M (list Z) :=
  fun s =>
    let k := length (spi_log s) in
    Ret (map (fun i => miso k i mod 256) (seq 0 (length req)))
        (set_spi_log (spi_log s ++ [req]) s).

(** [time.time()], in microseconds *)
Definition time_time : M Z :=
  fun s => Ret (clock (time_reads s) + slept s) (set_time_reads (S (time_reads s)) s).

(** [time.sleep], in microseconds *)
Definition time_sleep (us : Z) : M unit :=
  modify (fun s => set_slept (slept s + us) s).

Definition _readReg (addr : Z) : M Z :=
  select ;;
  resp <- spi_xfer [Z.land addr 0x7F; 0] ;;
  unselect ;;
  ret (nth 1 resp 0).

Definition _writeReg (addr value : Z) : M unit :=
  select ;;
  _ <- spi_xfer [Z.lor addr 0x80; value] ;;
  unselect.

(** *** Configuration *)

Definition set_network (network_id : Z) : M unit :=
  if (0 <? network_id) && (network_id <? 255)
  then _writeReg REG_SYNCVALUE2 network_id
  else raise AssertionError.

Definition set_power_level (percent : Z) : M unit :=
  modify (set_powerLevel (py_round_div (31 * percent) 100)) ;;
  reg <- _readReg REG_PALEVEL ;;
  level <- gets powerLevel ;;
  _writeReg REG_PALEVEL (Z.lor (Z.land reg 0xE0) level).

Definition _setHighPowerRegs (onOff : bool) : M unit :=
  if onOff then
    _writeReg REG_TESTPA1 0x5D ;;
    _writeReg REG_TESTPA2 0x7C
  else
    _writeReg REG_TESTPA1 0x55 ;;
    _writeReg REG_TESTPA2 0x70.

(** *** Operating mode *)

(** The body of one branch of [_setMode]: name the mode, rewrite the
    mode bits of the operating-mode register. *)
Definition write_opmode (name : string) (bits : Z) : M unit :=
  modify (set_mode_name name) ;;
  reg <- _readReg REG_OPMODE ;;
  _writeReg REG_OPMODE (Z.lor (Z.land reg 0xE3) bits).

(** The [if]/[elif] chain of [_setMode]; [false] is the [else] branch,
    which returns from the method. *)
Definition setMode_branch (newMode : Z) : M bool :=
  if newMode =? RF69_MODE_TX then
    write_opmode "TX" RF_OPMODE_TRANSMITTER ;;
    hw <- gets isRFM69HW ;;
    when hw (_setHighPowerRegs true) ;;
    ret true
  else if newMode =? RF69_MODE_RX then
    write_opmode "RX" RF_OPMODE_RECEIVER ;;
    hw <- gets isRFM69HW ;;
    when hw (_setHighPowerRegs false) ;;
    ret true
  else if newMode =? RF69_MODE_SYNTH then
    write_opmode "Synth" RF_OPMODE_SYNTHESIZER ;;
    ret true
  else if newMode =? RF69_MODE_STANDBY then
    write_opmode "Standby" RF_OPMODE_STANDBY ;;
    ret true
  else if newMode =? RF69_MODE_SLEEP then
    write_opmode "Sleep" RF_OPMODE_SLEEP ;;
    ret true
  else
    modify (set_mode_name "Unknown") ;;
    ret false.

(** The condition of the loop that waits for mode-ready when leaving
    sleep; the register is read only when the mode is sleep. *)
Definition leaving_sleep_not_ready : M bool :=
  cur <- gets mode ;;
  if mode_is cur RF69_MODE_SLEEP then
    flags <- _readReg REG_IRQFLAGS1 ;;
    ret (Z.land flags RF_IRQFLAGS1_MODEREADY =? 0x00)
  else ret false.

Definition _setMode (newMode : Z) : M unit :=
  cur <- gets mode ;;
  if mode_is cur newMode then ret tt
  else
    known <- setMode_branch newMode ;;
    if known then
      while fuel leaving_sleep_not_ready (ret tt) ;;
      modify (set_mode (Some newMode))
    else ret tt.

Definition sleep : M unit := _setMode RF69_MODE_SLEEP.

(** *** Receiving *)

Definition begin_receive : M unit :=
  while fuel (gets intLock) (time_sleep 100000) ;;
  flags <- _readReg REG_IRQFLAGS2 ;;
  when (negb (Z.land flags RF_IRQFLAGS2_PAYLOADREADY =? 0))
    (reg <- _readReg REG_PACKETCONFIG2 ;;
     _writeReg REG_PACKETCONFIG2 (Z.lor (Z.land reg 0xFB) RF_PACKET2_RXRESTART)) ;;
  _writeReg REG_DIOMAPPING1 RF_DIOMAPPING1_DIO0_01 ;;
  _setMode RF69_MODE_RX.

Definition has_received_packet : M bool :=
  gets (fun s => 0 <? len (packets s)).



Definition _readRSSI (forceTrigger : bool) : M Z :=
  when forceTrigger
    (_writeReg REG_RSSICONFIG RF_RSSI_START ;;
     while fuel (reg <- _readReg REG_RSSICONFIG ;; ret (Z.land reg RF_RSSI_DONE =? 0x00))
       (ret tt)) ;;
  reg <- _readReg REG_RSSIVALUE ;;
  ret (Z.shiftr (reg * -1) 1).

(** *** Sending *)

Definition _canSend : M bool :=
  cur <- gets mode ;;
  if mode_is cur RF69_MODE_STANDBY then
    begin_receive ;;
    ret true
  else if mode_is cur RF69_MODE_RX then
    rssi <- _readRSSI false ;;
    if rssi <? CSMA_LIMIT then
      _setMode RF69_MODE_STANDBY ;;
      ret true
    else ret false
  else ret false.

Definition _ACKReceived (fromNodeID : Z) : M bool :=
  table <- gets acks ;;
  match table !! fromNodeID with
  | Some _ => modify (set_acks (delete fromNodeID table)) ;; ret true
  | None => ret false
  end.

(** [buff] is the list of bytes, or the code points of the string. *)
Definition _sendFrame (toAddress : Z) (buff : list Z) (requestACK sendACK : bool)
  : M unit :=
  _setMode RF69_MODE_STANDBY ;;
  while fuel
    (flags <- _readReg REG_IRQFLAGS1 ;; ret (Z.land flags RF_IRQFLAGS1_MODEREADY =? 0x00))
    (ret tt) ;;
  _writeReg REG_DIOMAPPING1 RF_DIOMAPPING1_DIO0_00 ;;
  let buff := if RF69_MAX_DATA_LEN <? len buff
              then py_slice0 RF69_MAX_DATA_LEN buff else buff in
  let ack := if sendACK then 0x80 else if requestACK then 0x40 else 0 in
  select ;;
  me <- gets address ;;
  _ <- spi_xfer ([Z.lor REG_FIFO 0x80; len buff + 3; toAddress; me; ack] ++ buff) ;;
  unselect ;;
  modify (set_sendLock true) ;;
  _setMode RF69_MODE_TX ;;
  while fuel
    (flags <- _readReg REG_IRQFLAGS2 ;; ret (Z.land flags RF_IRQFLAGS2_PACKETSENT =? 0x00))
    (time_sleep 10000) ;;
  _setMode RF69_MODE_RX.

(** The condition of the carrier-sense loop of [_send]: the clock is read
    only when the channel is not clear. *)
Definition csma_wait (now : Z) : M bool :=
  clear <- _canSend ;;
  if negb clear then
    t <- time_time ;;
    ret (t - now <? RF69_CSMA_LIMIT_S * 1000000)
  else ret false.

Definition _send (toAddress : Z) (buff : list Z) (requestACK : bool) : M unit :=
  reg <- _readReg REG_PACKETCONFIG2 ;;
  _writeReg REG_PACKETCONFIG2 (Z.lor (Z.land reg 0xFB) RF_PACKET2_RXRESTART) ;;
  now <- time_time ;;
  while fuel (csma_wait now) (_ <- has_received_packet ;; ret tt) ;;
  _sendFrame toAddress buff requestACK false.

Definition send_ack (toAddress : Z) (buff : list Z) : M unit :=
  while fuel (clear <- _canSend ;; ret (negb clear))
    (_ <- has_received_packet ;; ret tt) ;;
  _sendFrame toAddress buff false true.

(** The acknowledgement wait of one attempt of [send]: [Some true] is its
    [return True]. *)
Definition wait_for_ack (toAddress sentTime wait_time : Z) : M (option bool) :=
  while_return fuel
    (t <- time_time ;; ret ((t - sentTime) <? wait_time * 1000))
    (time_sleep 50000 ;;
     got <- _ACKReceived toAddress ;;
     if got then ret (Some true) else ret None).

(** The [for] loop of [send] with [n] iterations left.  The result is
    [Some true], [Some false] or [None], as the method returns [True],
    [False] or [None]. *)
Fixpoint send_attempts (n : nat) (toAddress : Z) (buff : list Z)
    (attempts wait_time : Z) (require_ack : bool) : M (option bool) :=
  match n with
  | O => ret (Some false)
  | S n' =>
      _send toAddress buff (0 <? attempts) ;;
      if negb require_ack then ret None
      else
        sentTime <- time_time ;;
        r <- wait_for_ack toAddress sentTime wait_time ;;
        match r with
        | Some b => ret (Some b)
        | None => send_attempts n' toAddress buff attempts wait_time require_ack
        end
  end.

Definition send (toAddress : Z) (buff : list Z) (kwargs : SendKwargs)
  : M (option bool) :=
  let attempts := default 3 (kw_attempts kwargs) in
  let wait_time := default 50 (kw_wait kwargs) in
  let require_ack := default true (kw_require_ack kwargs) in
  let require_ack := if 1 <? attempts then true else require_ack in
  send_attempts (Z.to_nat attempts) toAddress buff attempts wait_time require_ack.

Definition broadcast (buff : list Z) : M unit :=
  let broadcastAddress := 255 in
  _ <- send broadcastAddress buff (mkSendKwargs None None (Some false)) ;;
  ret tt.

(** *** The interrupt handler *)

(** What the handler does with a frame that passed the address filter:
    read the payload and the signal strength, record an acknowledgement or
    queue the packet, reply when asked to. *)
Definition accept_frame (payload_length target_id sender_id CTLbyte : Z) : M unit :=
  let data_length := payload_length - 3 in
  let ack_received := negb (Z.land CTLbyte 0x80 =? 0) in
  let ack_requested := negb (Z.land CTLbyte 0x40 =? 0) in
  select ;;
  resp <- spi_xfer (Z.land REG_FIFO 0x7f :: repeat 0 (Z.to_nat data_length)) ;;
  unselect ;;
  let data := tail resp in
  rssi <- _readRSSI false ;;
  when ack_received (modify (fun s => set_acks (setdefault sender_id 1 (acks s)) s)) ;;
  when (negb ack_received)
    (modify (fun s =>
       set_packets (packets s ++ [mkPacket target_id sender_id rssi data]) s)) ;;
  auto <- gets auto_acknowledge ;;
  when (ack_requested && auto)
    (modify (set_intLock false) ;;
     send_ack sender_id []).

(** The body of the handler under its [if]; [true] when it ended in the
    [return] of the address filter. *)
Definition handle_payload : M bool :=
  _setMode RF69_MODE_STANDBY ;;
  select ;;
  resp <- spi_xfer [Z.land REG_FIFO 0x7f; 0; 0; 0; 0] ;;
  unselect ;;
  match tail resp with
  | [payload_length; target_id; sender_id; CTLbyte] =>
      let payload_length := if 66 <? payload_length then 66 else payload_length in
      promiscuous <- gets promiscuousMode ;;
      me <- gets address ;;
      if negb (promiscuous || (target_id =? me) || (target_id =? RF69_BROADCAST_ADDR))
      then
        modify (set_intLock false) ;;
        begin_receive ;;
        ret true
      else
        accept_frame payload_length target_id sender_id CTLbyte ;;
        ret false
  | _ => raise ValueError
  end.

(** The condition of the handler's [if]: the flags are read only in
    receive mode. *)
Definition payload_ready : M bool :=
  cur <- gets mode ;;
  if mode_is cur RF69_MODE_RX then
    flags <- _readReg REG_IRQFLAGS2 ;;
    ret (negb (Z.land flags RF_IRQFLAGS2_PAYLOADREADY =? 0))
  else ret false.

Definition _interruptHandler (pin : Z) : M unit :=
  modify (set_intLock true) ;;
  modify (set_sendLock false) ;;
  ready <- payload_ready ;;
  returned <- (if ready then handle_payload else ret false) ;;
  if returned then ret tt
  else
    modify (set_intLock false) ;;
    begin_receive.

(** *** Listen mode *)

Definition _getUsForResolution (resolution : Z) : Z :=
  if (resolution =? RF_LISTEN1_RESOL_RX_64) || (resolution =? RF_LISTEN1_RESOL_IDLE_64)
  then 64
  else if (resolution =? RF_LISTEN1_RESOL_RX_4100)
          || (resolution =? RF_LISTEN1_RESOL_IDLE_4100)
  then 4100
  else if (resolution =? RF_LISTEN1_RESOL_RX_262000)
          || (resolution =? RF_LISTEN1_RESOL_IDLE_262000)
  then 262000
  else 0.

(** The division raises when the resolution has no unit.  The source
    computes [int(duration / resolDuration)] through a float: below 2^53
    in absolute value this is the integer quotient truncated towards zero,
    [Z.quot]. *)
Definition _getCoefForResolution (resolution duration : Z) : M Z :=
  let resolDuration := _getUsForResolution resolution in
  if resolDuration =? 0 then raise ZeroDivisionError
  else
    let result := Z.quot duration resolDuration in
    if Z.abs (duration - (result + 1) * resolDuration)
       <? Z.abs (duration - result * resolDuration)
    then ret (result + 1)
    else ret result.

(** [None] is the pair [(None, None)]. *)
Fixpoint _chooseResolutionAndCoef (resolutions : list Z) (duration : Z)
  : M (option (Z * Z)) :=
  match resolutions with
  | [] => ret None
  | resolution :: rest =>
      coef <- _getCoefForResolution resolution duration ;;
      if coef <=? 255 then ret (Some (resolution, coef))
      else _chooseResolutionAndCoef rest duration
  end.

(** The truth value of an integer *)
Definition truthy (z : Z) : bool := negb (z =? 0).

Definition rxResolutions : list Z :=
  [RF_LISTEN1_RESOL_RX_64; RF_LISTEN1_RESOL_RX_4100; RF_LISTEN1_RESOL_RX_262000; 0].

Definition idleResolutions : list Z :=
  [RF_LISTEN1_RESOL_IDLE_64; RF_LISTEN1_RESOL_IDLE_4100; RF_LISTEN1_RESOL_IDLE_262000; 0].

Definition listenModeSetDurations (rxDuration idleDuration : Z)
  : M (option (Z * Z)) :=
  rx <- _chooseResolutionAndCoef rxResolutions rxDuration ;;
  match rx with
  | Some (resolOut, coefOut) =>
      if truthy resolOut && truthy coefOut then
        modify (set_rxListenResolution resolOut) ;;
        modify (set_rxListenCoef coefOut) ;;
        idle <- _chooseResolutionAndCoef idleResolutions idleDuration ;;
        match idle with
        | Some (resolOut, coefOut) =>
            if truthy resolOut && truthy coefOut then
              modify (set_idleListenResolution resolOut) ;;
              modify (set_idleListenCoef coefOut) ;;
              rxDuration <- gets (fun s =>
                _getUsForResolution (_rxListenResolution s) * _rxListenCoef s) ;;
              idleDuration <- gets (fun s =>
                _getUsForResolution (_idleListenResolution s) * _idleListenCoef s) ;;
              modify (set_listenCycleDurationUs (rxDuration + idleDuration)) ;;
              ret (Some (rxDuration, idleDuration))
            else ret None
        | None => ret None
        end
      else ret None
  | None => ret None
  end.


End Driver.

(** ** Reference values of the timing search

    The coefficient nearest to [duration / unit], the lower one on a tie,
    and the pair the search settles on for a duration between 0 and
    66 941 000 microseconds, written without the search. *)

Definition nearest_coef (unit duration : Z) : Z :=
  (2 * duration + unit - 1) / (2 * unit).

Definition chosen (r64 r4100 r262000 duration : Z) : Z * Z :=
  if duration <=? 16352 then (r64, nearest_coef 64 duration)
  else if duration <=? 1047550 then (r4100, nearest_coef 4100 duration)
  else (r262000, nearest_coef 262000 duration).

Definition unit_of_chosen (duration : Z) : Z :=
  if duration <=? 16352 then 64
  else if duration <=? 1047550 then 4100
  else 262000.

(** ** Observing a run *)

(** The byte the chip returns at position [i] of the next transfer. *)
Definition rx_byte (miso : nat -> nat -> Z) (s : Radio) (i : nat) : Z :=
  miso (length (spi_log s)) i mod 256.

(** The object after one transfer of [req] between [select] and
    [unselect]. *)
Definition bus (req : list Z) (s : Radio) : Radio :=
  set_selPin true (set_spi_log (spi_log s ++ [req]) (set_selPin false s)).

(** The frames written to the FIFO, among the requests of a bus log. *)
Definition frames_sent `{Registers} (log : list (list Z)) : list (list Z) :=
  filter (fun req => head req = Some (Z.lor REG_FIFO 0x80)) log.

(** The control byte of a frame written to the FIFO. *)
Definition control_byte (frame : list Z) : Z := nth 4 frame 0.

(** The number of writes of the operating-mode register in a bus log. *)
Definition opmode_writes `{Registers} (log : list (list Z)) : nat :=
  length (filter (fun req => head req = Some (Z.lor REG_OPMODE 0x80)) log).

(** The two test registers written on entering transmit or receive are
    not the operating-mode register. *)
Definition opmode_private `{Registers} : Prop :=
  Z.lor REG_TESTPA1 0x80 <> Z.lor REG_OPMODE 0x80 /\
  Z.lor REG_TESTPA2 0x80 <> Z.lor REG_OPMODE 0x80.

(** The modes [_setMode] has a branch for. *)
Definition known_mode `{Registers} (m : Z) : bool :=
  (m =? RF69_MODE_TX) || (m =? RF69_MODE_RX) || (m =? RF69_MODE_SYNTH)
  || (m =? RF69_MODE_STANDBY) || (m =? RF69_MODE_SLEEP).

(** The value of the last write of the operating-mode register among the
    requests of a bus log: the mode the chip was last told to take. *)
Definition last_opmode_write `{Registers} (log : list (list Z)) : option Z :=
  match last (filter (fun req => head req = Some (Z.lor REG_OPMODE 0x80)) log) with
  | Some req => Some (nth 1 req 0)
  | None => None
  end.

(** Bits 4 to 2 of the operating-mode register select the mode. *)
Definition mode_bits (value : Z) : Z := Z.land value 0x1C.

(** The chip was last told to receive. *)
Definition told_to_receive `{Registers} (log : list (list Z)) : Prop :=
  exists value, last_opmode_write log = Some value /\
                mode_bits value = RF_OPMODE_RECEIVER.

(** Whenever the driver believes it receives, the chip was last told so. *)
Definition listening_agrees `{Registers} (s : Radio) : Prop :=
  mode s = Some RF69_MODE_RX -> told_to_receive (spi_log s).

(** No other register the send and receive paths write shares the address
    of the operating-mode register, and the code of the receive mode lies
    in the mode bits. *)
Definition opmode_exclusive `{Registers} : Prop :=
  opmode_private /\
  Z.lor REG_DIOMAPPING1 0x80 <> Z.lor REG_OPMODE 0x80 /\
  Z.lor REG_PACKETCONFIG2 0x80 <> Z.lor REG_OPMODE 0x80 /\
  Z.lor REG_FIFO 0x80 <> Z.lor REG_OPMODE 0x80 /\
  mode_bits RF_OPMODE_RECEIVER = RF_OPMODE_RECEIVER.

(** From transfer [n] on, the second byte of every answer has the
    mode-ready and the packet-sent bit set: a wait for either flag ends at
    its first read.  The answers before transfer [n] are free. *)
Definition chip_ready_from `{Registers} (n : nat) (miso : nat -> nat -> Z) : Prop :=
  forall k, (n <= k)%nat ->
    Z.land (miso k 1%nat mod 256) RF_IRQFLAGS1_MODEREADY <> 0 /\
    Z.land (miso k 1%nat mod 256) RF_IRQFLAGS2_PACKETSENT <> 0.

(** What the helpers of the send and receive paths never touch. *)
Definition tables (s : Radio) :=
  (packets s, acks s, intLock s, auto_acknowledge s, isRFM69HW s, promiscuousMode s,
   address s).

Definition quiet (s : Radio) : unit -> Radio -> Prop :=
  fun _ s' => tables s' = tables s /\ mode s' = mode s.

(** When the handler starts in [s]: is the driver receiving with a payload
    ready (the flags are the first register read); the header of the
    frame in the FIFO (the fourth transfer, after the flags and the two
    transfers of the switch to standby); the address filter; the two bits
    of the control byte; the packet built from the payload (the fifth
    transfer) and the signal strength (the sixth). *)
Definition frame_ready `{Registers} (miso : nat -> nat -> Z) (s : Radio) : bool :=
  mode_is (mode s) RF69_MODE_RX
  && negb (Z.land (rx_byte miso s 1) RF_IRQFLAGS2_PAYLOADREADY =? 0).

Definition header_byte (miso : nat -> nat -> Z) (s : Radio) (i : nat) : Z :=
  miso (length (spi_log s) + 3)%nat i mod 256.

Definition passes_filter `{Registers} (s : Radio) (target_id : Z) : bool :=
  promiscuousMode s || (target_id =? address s) || (target_id =? RF69_BROADCAST_ADDR).

Definition is_ack_reply (CTLbyte : Z) : bool := negb (Z.land CTLbyte 0x80 =? 0).
Definition asks_for_ack (CTLbyte : Z) : bool := negb (Z.land CTLbyte 0x40 =? 0).

Definition queued_packet (miso : nat -> nat -> Z) (s : Radio) : Packet :=
  let n := length (spi_log s) in
  let payload_length := header_byte miso s 1 in
  let payload_length := if 66 <? payload_length then 66 else payload_length in
  mkPacket (header_byte miso s 2) (header_byte miso s 3)
    (Z.shiftr (miso (n + 5)%nat 1%nat mod 256 * -1) 1)
    (map (fun i => miso (n + 4)%nat i mod 256) (seq 1 (Z.to_nat (payload_length - 3)))).

(** The receive queue and the acknowledgement table the handler is
    expected to leave. *)
Definition handler_tables `{Registers} (miso : nat -> nat -> Z) (s : Radio)
  : list Packet * gmap Z Z :=
  if frame_ready miso s && passes_filter s (header_byte miso s 2) then
    if is_ack_reply (header_byte miso s 4)
    then (packets s, setdefault (header_byte miso s 3) 1 (acks s))
    else (packets s ++ [queued_packet miso s], acks s)
  else (packets s, acks s).

(** The handler has an acknowledgement to send back. *)
Definition reply_due `{Registers} (miso : nat -> nat -> Z) (s : Radio) : bool :=
  frame_ready miso s && passes_filter s (header_byte miso s 2)
  && asks_for_ack (header_byte miso s 4) && auto_acknowledge s.

(** The transfers of [begin_receive] when the driver is not yet in receive
    mode, the first of them being transfer [k]: the flags are read, the
    receiver is restarted when a payload is still flagged, DIO0 is mapped
    to payload-ready, the mode bits of the operating-mode register are
    set to receive, and a high-power module has its two test registers set
    back. *)
Definition resume_traffic `{Registers} (miso : nat -> nat -> Z) (hw : bool) (k : nat)
  : list (list Z) :=
  let restart := negb (Z.land (miso k 1%nat mod 256) RF_IRQFLAGS2_PAYLOADREADY =? 0) in
  let k1 := if restart then (k + 3)%nat else (k + 1)%nat in
  [[Z.land REG_IRQFLAGS2 0x7F; 0]]
  ++ (if restart
      then [[Z.land REG_PACKETCONFIG2 0x7F; 0];
            [Z.lor REG_PACKETCONFIG2 0x80;
             Z.lor (Z.land (miso (k + 1)%nat 1%nat mod 256) 0xFB) RF_PACKET2_RXRESTART]]
      else [])
  ++ [[Z.lor REG_DIOMAPPING1 0x80; RF_DIOMAPPING1_DIO0_01];
      [Z.land REG_OPMODE 0x7F; 0];
      [Z.lor REG_OPMODE 0x80;
       Z.lor (Z.land (miso (k1 + 1)%nat 1%nat mod 256) 0xE3) RF_OPMODE_RECEIVER]]
  ++ (if hw then [[Z.lor REG_TESTPA1 0x80; 0x55]; [Z.lor REG_TESTPA2 0x80; 0x70]]
      else []).

(** The transfers of a handler run that drops the frame: the flags, the
    switch to standby, the header of the frame, then [begin_receive]. *)
Definition discard_traffic `{Registers} (miso : nat -> nat -> Z) (s : Radio)
  : list (list Z) :=
  let n := length (spi_log s) in
  [[Z.land REG_IRQFLAGS2 0x7F; 0];
   [Z.land REG_OPMODE 0x7F; 0];
   [Z.lor REG_OPMODE 0x80;
    Z.lor (Z.land (miso (n + 1)%nat 1%nat mod 256) 0xE3) RF_OPMODE_STANDBY];
   [Z.land REG_FIFO 0x7f; 0; 0; 0; 0]]
  ++ resume_traffic miso (isRFM69HW s) (n + 4).

(** The number of entries a table holds for a sender. *)
Definition entries_for (k : Z) (table : gmap Z Z) : nat :=
  length (filter (fun kv => kv.1 = k) (map_to_list table)).

(** [wp total m s Q]: from [s] the method [m] returns, with a value and
    an object that satisfy [Q], and does not raise; when [total] is
    [false] it may also exhaust the fuel. *)
Definition wp {A} (total : bool) (m : M A) (s : Radio) (Q : A -> Radio -> Prop) : Prop :=
  match m s with
  | Ret a s' => Q a s'
  | Raise _ _ => False
  | OutOfFuel => if total then False else True
  end.

(** [respects R m]: [m] does not raise, and whenever it returns, the
    object it leaves is related by [R] to the one it started from. *)
Definition respects {A} (R : Radio -> Radio -> Prop) (m : M A) : Prop :=
  forall s, wp false m s (fun _ s' => R s s').

(** A step that leaves the stored mode and the last write of the
    operating-mode register as they are; the bus log only grows. *)
Definition calm `{Registers} (s s' : Radio) : Prop :=
  spi_log s `prefix_of` spi_log s' /\ mode s' = mode s /\
  last_opmode_write (spi_log s') = last_opmode_write (spi_log s).

(** A step that keeps the stored mode in agreement with the chip; the bus
    log only grows. *)
Definition steady `{Registers} (s s' : Radio) : Prop :=
  spi_log s `prefix_of` spi_log s' /\ (listening_agrees s -> listening_agrees s').

(** ** Concrete worlds and objects for the runs *)

(** A driver object in standby as node 7, high-power model, automatic
    acknowledgement on, promiscuous mode off, nothing queued and no
    acknowledgement pending. *)
Definition node7 : Radio :=
  mkRadio true true false false false (Some 1) "Standby" 7 22 [] ∅
          0x10 4 0x40 4 512 true [] 0%nat 0.

(** The same object while it listens, and in promiscuous mode. *)
Definition node7_listening : Radio := set_mode_name "RX" (set_mode (Some 3) node7).

Definition node7_promiscuous : Radio :=
  mkRadio true true true false false (Some 3) "RX" 7 22 [] ∅
          0x10 4 0x40 4 512 true [] 0%nat 0.

(** A chip whose every byte read is 0xFF: all status flags are up and the
    signal-strength register is at its floor, so the channel is clear. *)
Definition chip_ready_clear : nat -> nat -> Z := fun _ _ => 0xFF.

(** A chip whose every byte read is 0x88: mode-ready and packet-sent are
    up, payload-ready is down, and the signal strength reads -68 dBm, above
    the carrier-sense limit of -90: the channel is busy for ever. *)
Definition chip_ready_busy : nat -> nat -> Z := fun _ _ => 0x88.

(** A chip whose every byte read is 0. *)
Definition chip_zero : nat -> nat -> Z := fun _ _ => 0.

(** A chip that answers 0xFF to every transfer but the fourth, where it
    returns the bytes [hdr]: for a handler started on an empty bus log,
    the header of the frame in the FIFO. *)
Definition chip_with_header (hdr : list Z) : nat -> nat -> Z :=
  fun k i => if Nat.eqb k 3 then nth i hdr 0 else 0xFF.

(** A clock that advances one millisecond, or a tenth of a second, between
    two readings. *)
Definition clock_ms : nat -> Z := fun k => Z.of_nat k * 1000.
Definition clock_100ms : nat -> Z := fun k => Z.of_nat k * 100000.

(** * Properties *)

(** ** Listen-mode timing *)

Section ListenMode.

Context `{Registers}.

Lemma getUs_values :
  resolutions_distinct ->
  _getUsForResolution 0 = 0 /\
  _getUsForResolution RF_LISTEN1_RESOL_RX_64 = 64 /\
  _getUsForResolution RF_LISTEN1_RESOL_RX_4100 = 4100 /\
  _getUsForResolution RF_LISTEN1_RESOL_RX_262000 = 262000 /\
  _getUsForResolution RF_LISTEN1_RESOL_IDLE_64 = 64 /\
  _getUsForResolution RF_LISTEN1_RESOL_IDLE_4100 = 4100 /\
  _getUsForResolution RF_LISTEN1_RESOL_IDLE_262000 = 262000.
Proof.
  unfold resolutions_distinct, _getUsForResolution. intros Hd.
  repeat (apply NoDup_cons in Hd as [? Hd]).
  repeat match goal with
         | Hn : _ ∉ _ :: _ |- _ => apply not_elem_of_cons in Hn as [? ?]
         end.
  repeat split;
    repeat match goal with
           | |- context [?a =? ?b] =>
               first [ rewrite (Z.eqb_refl a)
                     | rewrite (proj2 (Z.eqb_neq a b)) by congruence ]
           end; reflexivity.
Qed.

(** On a non-negative duration the coefficient the driver computes is the
    nearest one. *)
Lemma getCoef_nonneg resolution unit duration s :
  _getUsForResolution resolution = unit -> 0 < unit -> 0 <= duration ->
  _getCoefForResolution resolution duration s = Ret (nearest_coef unit duration) s.
Proof.
  intros Hu Hpos Hd. unfold _getCoefForResolution, nearest_coef. rewrite Hu.
  rewrite (proj2 (Z.eqb_neq unit 0)) by lia.
  rewrite Z.quot_div_nonneg by lia.
  pose proof (Z.div_mod duration unit ltac:(lia)) as Hdm.
  pose proof (Z.mod_pos_bound duration unit Hpos) as Hr.
  set (q := duration / unit) in *. set (r := duration mod unit) in *.
  assert (0 <= q) by (subst q; apply Z.div_pos; lia).
  destruct (Z.ltb_spec (Z.abs (duration - (q + 1) * unit))
                       (Z.abs (duration - q * unit))) as [Hlt|Hge];
    unfold ret; f_equal;
    [ apply Z.div_unique_pos with (r := 2 * duration + unit - 1 - 2 * unit * (q + 1))
    | apply Z.div_unique_pos with (r := 2 * duration + unit - 1 - 2 * unit * q) ]; lia.
Qed.

Lemma getCoef_no_unit resolution duration s :
  _getUsForResolution resolution = 0 ->
  _getCoefForResolution resolution duration s = Raise ZeroDivisionError s.
Proof. intros Hu. unfold _getCoefForResolution. rewrite Hu. reflexivity. Qed.

Lemma nearest_coef_le_255 unit duration :
  0 < unit -> (nearest_coef unit duration <=? 255) = (2 * duration <=? 511 * unit).
Proof.
  intros Hpos. unfold nearest_coef.
  pose proof (Z.div_mod (2 * duration + unit - 1) (2 * unit) ltac:(lia)) as Hdm.
  pose proof (Z.mod_pos_bound (2 * duration + unit - 1) (2 * unit) ltac:(lia)) as Hr.
  destruct (Z.leb_spec ((2 * duration + unit - 1) / (2 * unit)) 255),
           (Z.leb_spec (2 * duration) (511 * unit)); try reflexivity; nia.
Qed.

Lemma nearest_coef_bounds unit duration :
  0 < unit -> unit < 2 * duration -> 2 * duration <= 511 * unit ->
  1 <= nearest_coef unit duration <= 255.
Proof.
  intros Hpos Hlo Hhi. unfold nearest_coef.
  pose proof (Z.div_mod (2 * duration + unit - 1) (2 * unit) ltac:(lia)) as Hdm.
  pose proof (Z.mod_pos_bound (2 * duration + unit - 1) (2 * unit) ltac:(lia)) as Hr.
  nia.
Qed.

Lemma nearest_coef_zero duration : 0 <= duration <= 32 -> nearest_coef 64 duration = 0.
Proof.
  intros Hd. unfold nearest_coef. symmetry.
  apply Z.div_unique_pos with (r := 2 * duration + 64 - 1); lia.
Qed.

(** The search over three resolutions and the closing 0, on a duration
    that some resolution can hold. *)
Lemma choose_in_range r64 r4100 r262000 duration s :
  _getUsForResolution r64 = 64 ->
  _getUsForResolution r4100 = 4100 ->
  _getUsForResolution r262000 = 262000 ->
  0 <= duration <= 66941000 ->
  _chooseResolutionAndCoef [r64; r4100; r262000; 0] duration s
  = Ret (Some (chosen r64 r4100 r262000 duration)) s.
Proof.
  intros H64 H4100 H262000 Hd. unfold chosen. cbn [_chooseResolutionAndCoef].
  unfold bind at 1. rewrite (getCoef_nonneg _ _ _ _ H64) by lia.
  rewrite nearest_coef_le_255 by lia.
  destruct (Z.leb_spec duration 16352).
  { rewrite (proj2 (Z.leb_le _ _)) by lia. reflexivity. }
  rewrite (proj2 (Z.leb_gt _ _)) by lia.
  unfold bind at 1. rewrite (getCoef_nonneg _ _ _ _ H4100) by lia.
  rewrite nearest_coef_le_255 by lia.
  destruct (Z.leb_spec duration 1047550).
  { rewrite (proj2 (Z.leb_le _ _)) by lia. reflexivity. }
  rewrite (proj2 (Z.leb_gt _ _)) by lia.
  unfold bind at 1. rewrite (getCoef_nonneg _ _ _ _ H262000) by lia.
  rewrite nearest_coef_le_255 by lia.
  rewrite (proj2 (Z.leb_le _ _)) by lia. reflexivity.
Qed.

(** Beyond the coarsest resolution the search reaches the closing 0 and
    divides by its unit. *)
Lemma choose_too_long r64 r4100 r262000 duration s :
  _getUsForResolution r64 = 64 ->
  _getUsForResolution r4100 = 4100 ->
  _getUsForResolution r262000 = 262000 ->
  _getUsForResolution 0 = 0 ->
  66941000 < duration ->
  _chooseResolutionAndCoef [r64; r4100; r262000; 0] duration s
  = Raise ZeroDivisionError s.
Proof.
  intros H64 H4100 H262000 H0 Hd. cbn [_chooseResolutionAndCoef].
  unfold bind at 1. rewrite (getCoef_nonneg _ _ _ _ H64) by lia.
  rewrite nearest_coef_le_255, (proj2 (Z.leb_gt _ _)) by lia.
  unfold bind at 1. rewrite (getCoef_nonneg _ _ _ _ H4100) by lia.
  rewrite nearest_coef_le_255, (proj2 (Z.leb_gt _ _)) by lia.
  unfold bind at 1. rewrite (getCoef_nonneg _ _ _ _ H262000) by lia.
  rewrite nearest_coef_le_255, (proj2 (Z.leb_gt _ _)) by lia.
  unfold bind at 1. rewrite (getCoef_no_unit _ _ _ H0). reflexivity.
Qed.

Lemma chosen_spec r64 r4100 r262000 duration :
  32 < duration <= 66941000 ->
  exists r c,
    chosen r64 r4100 r262000 duration = (r, c) /\
    In r [r64; r4100; r262000] /\ 1 <= c <= 255 /\
    c = nearest_coef (unit_of_chosen duration) duration.
Proof.
  intros Hd. unfold chosen, unit_of_chosen.
  destruct (Z.leb_spec duration 16352); [|destruct (Z.leb_spec duration 1047550)];
    eexists _, _; (split; [reflexivity|]);
    (split; [cbn; tauto|]); (split; [apply nearest_coef_bounds; lia | reflexivity]).
Qed.

Lemma chosen_zero r64 r4100 r262000 duration :
  0 <= duration <= 32 -> chosen r64 r4100 r262000 duration = (r64, 0).
Proof.
  intros Hd. unfold chosen. rewrite (proj2 (Z.leb_le _ _)) by lia.
  rewrite nearest_coef_zero by lia. reflexivity.
Qed.

Lemma resolutions_nonzero :
  resolutions_distinct ->
  truthy RF_LISTEN1_RESOL_RX_64 = true /\ truthy RF_LISTEN1_RESOL_RX_4100 = true /\
  truthy RF_LISTEN1_RESOL_RX_262000 = true /\ truthy RF_LISTEN1_RESOL_IDLE_64 = true /\
  truthy RF_LISTEN1_RESOL_IDLE_4100 = true /\ truthy RF_LISTEN1_RESOL_IDLE_262000 = true.
Proof.
  unfold resolutions_distinct, truthy. intros Hd.
  apply NoDup_cons in Hd as [Hd _].
  repeat match goal with
         | Hn : _ ∉ _ :: _ |- _ => apply not_elem_of_cons in Hn as [? ?]
         end.
  repeat split; apply negb_true_iff, Z.eqb_neq; congruence.
Qed.

Lemma truthy_coef c : 1 <= c -> truthy c = true.
Proof. intros Hc. unfold truthy. apply negb_true_iff, Z.eqb_neq. lia. Qed.

(** The setter on two durations between 0 and 66 941 000 microseconds:
    what it returns and what it leaves in the object. *)
Lemma listenModeSetDurations_eq rxDuration idleDuration s :
  resolutions_distinct ->
  0 <= rxDuration <= 66941000 ->
  0 <= idleDuration <= 66941000 ->
  listenModeSetDurations rxDuration idleDuration s =
    (if rxDuration <=? 32 then Ret None s
     else
       let '(r1, c1) := chosen RF_LISTEN1_RESOL_RX_64 RF_LISTEN1_RESOL_RX_4100
                          RF_LISTEN1_RESOL_RX_262000 rxDuration in
       let s1 := set_rxListenCoef c1 (set_rxListenResolution r1 s) in
       if idleDuration <=? 32 then Ret None s1
       else
         let '(r2, c2) := chosen RF_LISTEN1_RESOL_IDLE_64 RF_LISTEN1_RESOL_IDLE_4100
                            RF_LISTEN1_RESOL_IDLE_262000 idleDuration in
         let rx := unit_of_chosen rxDuration * c1 in
         let idle := unit_of_chosen idleDuration * c2 in
         Ret (Some (rx, idle))
             (set_listenCycleDurationUs (rx + idle)
                (set_idleListenCoef c2 (set_idleListenResolution r2 s1)))).
Proof.
  intros Hd Hrx Hidle.
  destruct (getUs_values Hd) as (U0 & U1 & U2 & U3 & U4 & U5 & U6).
  destruct (resolutions_nonzero Hd) as (T1 & T2 & T3 & T4 & T5 & T6).
  unfold listenModeSetDurations, rxResolutions, idleResolutions.
  unfold bind at 1. rewrite (choose_in_range _ _ _ _ _ U1 U2 U3 Hrx).
  destruct (Z.leb_spec rxDuration 32) as [Hz|Hnz].
  { rewrite chosen_zero by lia. unfold truthy at 2. cbn. rewrite andb_false_r.
    reflexivity. }
  assert (Hc1 := nearest_coef_bounds 64 rxDuration).
  assert (Hc2 := nearest_coef_bounds 4100 rxDuration).
  assert (Hc3 := nearest_coef_bounds 262000 rxDuration).
  assert (Hi1 := nearest_coef_bounds 64 idleDuration).
  assert (Hi2 := nearest_coef_bounds 4100 idleDuration).
  assert (Hi3 := nearest_coef_bounds 262000 idleDuration).
  unfold chosen at 1 2, unit_of_chosen at 1.
  destruct (Z.leb_spec rxDuration 16352); [|destruct (Z.leb_spec rxDuration 1047550)].
  all: rewrite ?T1, ?T2, ?T3, truthy_coef by lia; cbn [andb].
  all: unfold bind at 1; cbn [modify]; unfold bind at 1; cbn [modify]; unfold bind at 1.
  all: rewrite (choose_in_range _ _ _ _ _ U4 U5 U6 Hidle).
  all: destruct (Z.leb_spec idleDuration 32) as [Hiz|Hinz];
    [ rewrite chosen_zero by lia; unfold truthy at 2; cbn; rewrite andb_false_r;
      reflexivity |].
  all: unfold chosen, unit_of_chosen.
  all: destruct (Z.leb_spec idleDuration 16352);
    [|destruct (Z.leb_spec idleDuration 1047550)].
  all: rewrite ?T4, ?T5, ?T6, truthy_coef by lia; cbn [andb].
  all: cbn; rewrite ?U1, ?U2, ?U3, ?U4, ?U5, ?U6.
  all: repeat match goal with
         | |- context [?a <=? ?b] => destruct (Z.leb_spec a b); try lia
         end; reflexivity.
Qed.

(** An idle duration beyond every resolution: the RX pair is stored, then
    the idle search divides by the unit of the closing 0. *)
Lemma listenModeSetDurations_idle_too_long rxDuration idleDuration s :
  resolutions_distinct ->
  32 < rxDuration <= 66941000 ->
  66941000 < idleDuration ->
  listenModeSetDurations rxDuration idleDuration s =
    let '(r1, c1) := chosen RF_LISTEN1_RESOL_RX_64 RF_LISTEN1_RESOL_RX_4100
                       RF_LISTEN1_RESOL_RX_262000 rxDuration in
    Raise ZeroDivisionError (set_rxListenCoef c1 (set_rxListenResolution r1 s)).
Proof.
  intros Hd Hrx Hidle.
  destruct (getUs_values Hd) as (U0 & U1 & U2 & U3 & U4 & U5 & U6).
  destruct (resolutions_nonzero Hd) as (T1 & T2 & T3 & T4 & T5 & T6).
  unfold listenModeSetDurations, rxResolutions, idleResolutions.
  unfold bind at 1. rewrite (choose_in_range _ _ _ _ _ U1 U2 U3) by lia.
  assert (Hc1 := nearest_coef_bounds 64 rxDuration).
  assert (Hc2 := nearest_coef_bounds 4100 rxDuration).
  assert (Hc3 := nearest_coef_bounds 262000 rxDuration).
  unfold chosen.
  destruct (Z.leb_spec rxDuration 16352); [|destruct (Z.leb_spec rxDuration 1047550)].
  all: rewrite ?T1, ?T2, ?T3, truthy_coef by lia; cbn [andb].
  all: unfold bind at 1; cbn [modify]; unfold bind at 1; cbn [modify]; unfold bind at 1.
  all: rewrite (choose_too_long _ _ _ _ _ U4 U5 U6 U0) by lia; reflexivity.
Qed.

(** C6.  An RX duration of 20500 microseconds: the 64-microsecond
    resolution would need coefficient 320 and is passed over, the search
    returns the 4100-microsecond resolution with coefficient 5, and
    4100 * 5 is 20500 exactly. *)
Theorem rx_20500_selects_4100_times_5 (s : Radio) :
  resolutions_distinct ->
  _getCoefForResolution RF_LISTEN1_RESOL_RX_64 20500 s = Ret 320 s /\
  _chooseResolutionAndCoef rxResolutions 20500 s
    = Ret (Some (RF_LISTEN1_RESOL_RX_4100, 5)) s /\
  _getUsForResolution RF_LISTEN1_RESOL_RX_4100 * 5 = 20500 /\
  20500 - _getUsForResolution RF_LISTEN1_RESOL_RX_4100 * 5 = 0.
Proof.
  intros Hd. destruct (getUs_values Hd) as (U0 & U1 & U2 & U3 & _).
  split; [|split].
  - rewrite (getCoef_nonneg _ _ _ _ U1) by lia. reflexivity.
  - unfold rxResolutions. rewrite (choose_in_range _ _ _ _ _ U1 U2 U3) by lia.
    reflexivity.
  - rewrite U2. split; reflexivity.
Qed.

(** C3, as the driver has it.  For an RX and an idle duration between 0
    and 66 941 000 microseconds the setter returns the failure pair when
    the coefficient chosen for one of them is 0, which is so from 0 to 32
    microseconds; from 33 microseconds on it succeeds and stores, for each
    duration, the first resolution whose nearest coefficient is at most
    255 with that coefficient, which lies between 1 and 255. *)
Theorem listenModeSetDurations_in_range rxDuration idleDuration s :
  resolutions_distinct ->
  0 <= rxDuration <= 66941000 ->
  0 <= idleDuration <= 66941000 ->
  listenModeSetDurations rxDuration idleDuration s =
    (if rxDuration <=? 32 then Ret None s
     else
       let '(r1, c1) := chosen RF_LISTEN1_RESOL_RX_64 RF_LISTEN1_RESOL_RX_4100
                          RF_LISTEN1_RESOL_RX_262000 rxDuration in
       let s1 := set_rxListenCoef c1 (set_rxListenResolution r1 s) in
       if idleDuration <=? 32 then Ret None s1
       else
         let '(r2, c2) := chosen RF_LISTEN1_RESOL_IDLE_64 RF_LISTEN1_RESOL_IDLE_4100
                            RF_LISTEN1_RESOL_IDLE_262000 idleDuration in
         let rx := unit_of_chosen rxDuration * c1 in
         let idle := unit_of_chosen idleDuration * c2 in
         Ret (Some (rx, idle))
             (set_listenCycleDurationUs (rx + idle)
                (set_idleListenCoef c2 (set_idleListenResolution r2 s1)))) /\
  (32 < rxDuration ->
   exists r c,
     chosen RF_LISTEN1_RESOL_RX_64 RF_LISTEN1_RESOL_RX_4100
       RF_LISTEN1_RESOL_RX_262000 rxDuration = (r, c) /\
     _chooseResolutionAndCoef rxResolutions rxDuration s = Ret (Some (r, c)) s /\
     1 <= c <= 255 /\ c = nearest_coef (unit_of_chosen rxDuration) rxDuration) /\
  (32 < idleDuration ->
   exists r c,
     chosen RF_LISTEN1_RESOL_IDLE_64 RF_LISTEN1_RESOL_IDLE_4100
       RF_LISTEN1_RESOL_IDLE_262000 idleDuration = (r, c) /\
     _chooseResolutionAndCoef idleResolutions idleDuration s = Ret (Some (r, c)) s /\
     1 <= c <= 255 /\ c = nearest_coef (unit_of_chosen idleDuration) idleDuration).
Proof.
  intros Hd Hrx Hidle.
  destruct (getUs_values Hd) as (U0 & U1 & U2 & U3 & U4 & U5 & U6).
  split; [apply listenModeSetDurations_eq; assumption|].
  split; intros Hlo.
  - destruct (chosen_spec RF_LISTEN1_RESOL_RX_64 RF_LISTEN1_RESOL_RX_4100
                RF_LISTEN1_RESOL_RX_262000 rxDuration) as (r & c & E & _ & B & N);
      [lia|].
    exists r, c. repeat split; try assumption; try lia.
    unfold rxResolutions. rewrite (choose_in_range _ _ _ _ _ U1 U2 U3) by lia.
    rewrite E. reflexivity.
  - destruct (chosen_spec RF_LISTEN1_RESOL_IDLE_64 RF_LISTEN1_RESOL_IDLE_4100
                RF_LISTEN1_RESOL_IDLE_262000 idleDuration) as (r & c & E & _ & B & N);
      [lia|].
    exists r, c. repeat split; try assumption; try lia.
    unfold idleResolutions. rewrite (choose_in_range _ _ _ _ _ U4 U5 U6) by lia.
    rewrite E. reflexivity.
Qed.

(** C10.  When the RX duration is stored (33 to 66 941 000 microseconds)
    and the idle duration is not, the stored RX resolution and coefficient
    are already the new ones and the idle resolution, the idle coefficient
    and the cycle duration are the old ones.  For an idle duration of at
    most 32 microseconds the call returns the failure pair; for one beyond
    66 941 000 microseconds and below 2^53, where the float quotient of
    the source truncates to the integer quotient, it does not return: it
    raises [ZeroDivisionError]. *)
Theorem listenModeSetDurations_idle_failure rxDuration idleDuration s :
  resolutions_distinct ->
  32 < rxDuration <= 66941000 ->
  let '(r1, c1) := chosen RF_LISTEN1_RESOL_RX_64 RF_LISTEN1_RESOL_RX_4100
                     RF_LISTEN1_RESOL_RX_262000 rxDuration in
  let s1 := set_rxListenCoef c1 (set_rxListenResolution r1 s) in
  (_rxListenResolution s1 = r1 /\ _rxListenCoef s1 = c1 /\
   _idleListenResolution s1 = _idleListenResolution s /\
   _idleListenCoef s1 = _idleListenCoef s /\
   _listenCycleDurationUs s1 = _listenCycleDurationUs s) /\
  (0 <= idleDuration <= 32 ->
   listenModeSetDurations rxDuration idleDuration s = Ret None s1) /\
  (66941000 < idleDuration < 2 ^ 53 ->
   listenModeSetDurations rxDuration idleDuration s = Raise ZeroDivisionError s1).
Proof.
  intros Hd Hrx.
  destruct (chosen RF_LISTEN1_RESOL_RX_64 RF_LISTEN1_RESOL_RX_4100
              RF_LISTEN1_RESOL_RX_262000 rxDuration) as [r1 c1] eqn:E.
  split; [repeat split|split]; intros Hidle.
  - rewrite listenModeSetDurations_eq by (assumption || lia).
    rewrite (proj2 (Z.leb_gt _ _)) by lia. rewrite E.
    rewrite (proj2 (Z.leb_le _ _)) by lia. reflexivity.
  - rewrite listenModeSetDurations_idle_too_long by (assumption || lia).
    rewrite E. reflexivity.
Qed.

End ListenMode.

Lemma rfm69_resolutions_distinct : @resolutions_distinct rfm69.
Proof.
  unfold resolutions_distinct. apply (bool_decide_unpack _). vm_compute. exact I.
Qed.

(** C6 on the register map of the chip. *)
Lemma rx_20500_selects_4100_times_5_witness :
  @resolutions_distinct rfm69 /\
  @_chooseResolutionAndCoef rfm69 (@rxResolutions rfm69) 20500 node7
  = Ret (Some (0x20, 5)) node7.
Proof.
  pose proof rfm69_resolutions_distinct as Hd.
  split; [exact Hd|].
  exact (proj1 (proj2 (@rx_20500_selects_4100_times_5 rfm69 node7 Hd))).
Defined.

(** C3 on the register map of the chip: 20500 and 1 000 000 microseconds
    are stored as 5 * 4100 and 244 * 4100. *)
Lemma listenModeSetDurations_in_range_witness :
  @resolutions_distinct rfm69 /\ 0 <= 20500 <= 66941000 /\ 0 <= 1000000 <= 66941000 /\
  exists s', @listenModeSetDurations rfm69 20500 1000000 node7
             = Ret (Some (20500, 1000400)) s'.
Proof.
  pose proof rfm69_resolutions_distinct as Hd.
  assert (H1 : 0 <= 20500 <= 66941000) by lia.
  assert (H2 : 0 <= 1000000 <= 66941000) by lia.
  split; [exact Hd|]. split; [exact H1|]. split; [exact H2|].
  eexists.
  rewrite (proj1 (@listenModeSetDurations_in_range rfm69 20500 1000000 node7 Hd H1 H2)).
  reflexivity.
Defined.

(** C3 as stated fails on an RX duration of 10 microseconds: the finest
    resolution holds it with coefficient 0, which lies within 0 to 255,
    and yet the setter returns the failure pair and stores nothing. *)
Lemma listenModeSetDurations_rejects_coefficient_0 :
  (exists c, @_getCoefForResolution rfm69 0x10 10 node7 = Ret c node7 /\ 0 <= c <= 255) /\
  @listenModeSetDurations rfm69 10 20500 node7 = Ret None node7 /\
  ~ (exists durations s',
       @listenModeSetDurations rfm69 10 20500 node7 = Ret (Some durations) s').
Proof.
  split; [exists 0; split; [reflexivity | lia]|].
  split; [reflexivity|].
  intros (d & s' & E). discriminate E.
Qed.

(** C10 on the register map of the chip, at an RX duration of 20500 and an
    idle duration of 100 000 000 microseconds: the call raises, with the RX
    resolution and coefficient already overwritten. *)
Lemma listenModeSetDurations_idle_failure_witness :
  @resolutions_distinct rfm69 /\ 32 < 20500 <= 66941000 /\
  @listenModeSetDurations rfm69 20500 100000000 node7
  = Raise ZeroDivisionError (set_rxListenCoef 5 (set_rxListenResolution 0x20 node7)).
Proof.
  pose proof rfm69_resolutions_distinct as Hd.
  assert (H1 : 32 < 20500 <= 66941000) by lia.
  split; [exact Hd|]. split; [exact H1|].
  pose proof (@listenModeSetDurations_idle_failure rfm69 20500 100000000 node7 Hd H1)
    as Hf.
  cbv beta iota zeta delta [chosen] in Hf. cbn in Hf.
  apply Hf. lia.
Defined.

(** ** Reasoning about methods *)

Lemma while_unfold fuel cond body :
  while fuel cond body =
  (b <- cond ;;
   if b then match fuel with O => out_of_fuel | S n => body ;; while n cond body end
   else ret tt).
Proof. destruct fuel; reflexivity. Qed.

Section Logic.
Context {A B : Type}.

Lemma wp_bind t (m : M A) (k : A -> M B) s Q :
  wp t m s (fun a s' => wp t (k a) s' Q) -> wp t (bind m k) s Q.
Proof. unfold wp, bind. destruct (m s); auto. Qed.

Lemma wp_bind_inv t (m : M A) (k : A -> M B) s Q :
  wp t (bind m k) s Q -> wp t m s (fun a s' => wp t (k a) s' Q).
Proof. unfold wp, bind. destruct (m s); auto. Qed.

Lemma wp_mono t (m : M A) s (Q Q' : A -> Radio -> Prop) :
  wp t m s Q -> (forall a s', Q a s' -> Q' a s') -> wp t m s Q'.
Proof. unfold wp. destruct (m s); auto. Qed.

Lemma wp_total_partial (m : M A) s Q : wp true m s Q -> wp false m s Q.
Proof. unfold wp. destruct (m s); auto. Qed.

Lemma wp_Ret t (m : M A) s a s' (Q : A -> Radio -> Prop) :
  m s = Ret a s' -> Q a s' -> wp t m s Q.
Proof. unfold wp. intros ->. auto. Qed.

Lemma wp_Ret_inv (m : M A) s a s' (Q : A -> Radio -> Prop) :
  wp false m s Q -> m s = Ret a s' -> Q a s'.
Proof. unfold wp. intros Hw E. rewrite E in Hw. exact Hw. Qed.

Lemma wp_total_returns (m : M A) s Q :
  wp true m s Q -> exists a s', m s = Ret a s' /\ Q a s'.
Proof. unfold wp. destruct (m s); try tauto. eauto. Qed.

End Logic.

Lemma wp_while (t : bool) fuel (cond : M bool) (body : M unit) s (Inv : Radio -> Prop) (Q : unit -> Radio -> Prop) :
  Inv s ->
  (forall s, Inv s ->
     wp false cond s (fun b s' =>
       if b then wp false body s' (fun _ s'' => Inv s'') else Q tt s')) ->
  t = false ->
  wp t (while fuel cond body) s Q.
Proof.
  intros HI Hstep ->. revert s HI. induction fuel as [|n IH]; intros s HI;
    rewrite while_unfold; apply wp_bind;
    (eapply wp_mono; [apply Hstep, HI|]); cbn beta; intros [] s' Hb; try exact Hb.
  - exact I.
  - apply wp_bind. eapply wp_mono; [exact Hb|]. cbn beta. intros _ s'' HI'.
    apply IH, HI'.
Qed.

Lemma wp_while_exit (t : bool) fuel (cond : M bool) (body : M unit) s (Q : unit -> Radio -> Prop) :
  wp t cond s (fun b s' => b = false /\ Q tt s') ->
  wp t (while fuel cond body) s Q.
Proof.
  intros Hc. rewrite while_unfold. apply wp_bind. eapply wp_mono; [exact Hc|].
  cbn beta. intros b s' [-> HQ]. exact HQ.
Qed.

Ltac simpl_state :=
  unfold rx_byte in *;
  cbn [auto_acknowledge isRFM69HW promiscuousMode intLock sendLock mode mode_name
       address powerLevel packets acks _rxListenResolution _rxListenCoef
       _idleListenResolution _idleListenCoef _listenCycleDurationUs selPin spi_log
       time_reads slept
       set_intLock set_sendLock set_mode set_mode_name set_powerLevel set_packets
       set_acks set_rxListenResolution set_rxListenCoef set_idleListenResolution
       set_idleListenCoef set_listenCycleDurationUs set_selPin set_spi_log
       set_time_reads set_slept bus] in *.

Ltac solve_tables :=
  solve [ reflexivity | etransitivity; [|eassumption]; solve_tables ].

Ltac norm_len :=
  rewrite ?length_app; cbn [length]; rewrite <- ?Nat.add_assoc; cbn [Nat.add].

Ltac solve_prefix := repeat (apply prefix_app_r); reflexivity.

(** *** Relations that every step of a method respects

    For a reflexive and transitive relation [R] on driver objects,
    [respects R] goes through sequencing, branching and loops, whatever
    the fuel: what holds of the primitive steps holds of the method. *)

Lemma bind_Ret {A B} (m : M A) (k : A -> M B) s a s' :
  m s = Ret a s' -> bind m k s = k a s'.
Proof. unfold bind. intros ->. reflexivity. Qed.

Section Respects.
Context {R : Radio -> Radio -> Prop} `{!PreOrder R}.

Lemma respects_ret {A} (a : A) : respects R (ret a).
Proof. intros s. unfold wp, ret. reflexivity. Qed.

Lemma respects_gets {A} (f : Radio -> A) : respects R (gets f).
Proof. intros s. unfold wp, gets. reflexivity. Qed.

Lemma respects_modify f : (forall s, R s (f s)) -> respects R (modify f).
Proof. intros Hf s. unfold wp, modify. apply Hf. Qed.

Lemma respects_bind {A B} (m : M A) (k : A -> M B) :
  respects R m -> (forall a, respects R (k a)) -> respects R (bind m k).
Proof.
  intros Hm Hk s. apply wp_bind. eapply wp_mono; [apply Hm|].
  cbn beta. intros a s1 H1. eapply wp_mono; [apply Hk|].
  cbn beta. intros b s2 H2. etransitivity; eassumption.
Qed.

Lemma respects_when b (m : M unit) : respects R m -> respects R (when b m).
Proof. intros Hm. destruct b; [exact Hm|apply respects_ret]. Qed.

Lemma respects_if {A} (b : bool) (m1 m2 : M A) :
  respects R m1 -> respects R m2 -> respects R (if b then m1 else m2).
Proof. destruct b; auto. Qed.

Lemma respects_while fuel (cond : M bool) (body : M unit) :
  respects R cond -> respects R body -> respects R (while fuel cond body).
Proof.
  intros Hc Hb. induction fuel as [|n IH]; rewrite while_unfold;
    (apply respects_bind; [exact Hc|]); intros [].
  - intros s. exact I.
  - apply respects_ret.
  - apply respects_bind; [exact Hb|]. intros _. exact IH.
  - apply respects_ret.
Qed.

Lemma wp_also {A} t (m : M A) s (Q : A -> Radio -> Prop) :
  wp t m s Q -> respects R m -> wp t m s (fun a s' => Q a s' /\ R s s').
Proof.
  intros Hq Hr. specialize (Hr s). unfold wp in *.
  destruct (m s); try assumption. split; assumption.
Qed.

End Respects.

Lemma respects_weaken {A} (R R' : Radio -> Radio -> Prop) (m : M A) :
  (forall s s', R s s' -> R' s s') -> respects R m -> respects R' m.
Proof. intros Hsub Hm s. eapply wp_mono; [apply Hm|]. cbn beta. auto. Qed.

Lemma wp_also_if {A} (R : Radio -> Radio -> Prop) t (m : M A) s (Q : A -> Radio -> Prop) :
  wp t m s Q -> (t = true -> respects R m) ->
  wp t m s (fun a s' => Q a s' /\ (t = true -> R s s')).
Proof.
  intros Hq Hr. destruct t.
  - specialize (Hr eq_refl s). unfold wp in *.
    destruct (m s); try assumption. split; [assumption|]. intros _. assumption.
  - eapply wp_mono; [exact Hq|]. cbn beta. intros a s' HQ. split; [exact HQ|discriminate].
Qed.

Ltac len_facts :=
  repeat match goal with
         | P : steady _ _ |- _ => destruct P as [P _]
         | P : calm _ _ |- _ => destruct P as [P _]
         | P : _ `prefix_of` _ |- _ => apply prefix_length in P
         end;
  simpl_state; rewrite ?length_app in *; cbn [length] in *.

(** ** The bus *)

Section Bus.
Context `{Registers}.
Variable miso : nat -> nat -> Z.

Lemma readReg_eq addr s :
  _readReg miso addr s = Ret (rx_byte miso s 1) (bus [Z.land addr 0x7F; 0] s).
Proof. reflexivity. Qed.

Lemma writeReg_eq addr value s :
  _writeReg miso addr value s = Ret tt (bus [Z.lor addr 0x80; value] s).
Proof. reflexivity. Qed.

Lemma readRSSI_eq fuel s :
  _readRSSI miso fuel false s =
  Ret (Z.shiftr (rx_byte miso s 1 * -1) 1) (bus [Z.land REG_RSSIVALUE 0x7F; 0] s).
Proof. reflexivity. Qed.

Lemma read_head_not_write a b : Z.land a 0x7F <> Z.lor b 0x80.
Proof.
  intros E. apply (f_equal (fun z => Z.testbit z 7)) in E.
  rewrite Z.land_spec, Z.lor_spec in E. cbn in E.
  rewrite andb_false_r, orb_true_r in E. discriminate.
Qed.

Lemma opmode_writes_snoc log req :
  opmode_writes (log ++ [req]) =
  (opmode_writes log
   + if decide (head req = Some (Z.lor REG_OPMODE 0x80)) then 1 else 0)%nat.
Proof.
  unfold opmode_writes. rewrite filter_app, length_app. f_equal.
  rewrite filter_cons, filter_nil. destruct (decide _); reflexivity.
Qed.

Lemma opmode_writes_read log a b :
  opmode_writes (log ++ [[Z.land a 0x7F; b]]) = opmode_writes log.
Proof.
  rewrite opmode_writes_snoc, decide_False; [lia|].
  cbn. intros [= E]. exact (read_head_not_write _ _ E).
Qed.

Lemma opmode_writes_write log v :
  opmode_writes (log ++ [[Z.lor REG_OPMODE 0x80; v]]) = S (opmode_writes log).
Proof. rewrite opmode_writes_snoc, decide_True; [lia|reflexivity]. Qed.

Lemma opmode_writes_other log reg v :
  Z.lor reg 0x80 <> Z.lor REG_OPMODE 0x80 ->
  opmode_writes (log ++ [[Z.lor reg 0x80; v]]) = opmode_writes log.
Proof.
  intros Hne. rewrite opmode_writes_snoc, decide_False; [lia|].
  cbn. intros [= E]. exact (Hne E).
Qed.

End Bus.

Ltac wp_prim := eapply wp_Ret; [reflexivity|]; cbn beta iota.
Ltac wp_step :=
  lazymatch goal with
  | |- wp _ (bind _ _) _ _ => apply wp_bind
  | |- wp _ (ret _) _ _ => wp_prim
  | |- wp _ (gets _) _ _ => wp_prim
  | |- wp _ (modify _) _ _ => wp_prim
  | |- wp _ (when true _) _ _ => unfold when at 1
  | |- wp _ (when false _) _ _ => wp_prim
  | |- wp _ (when _ _) _ _ => progress cbn [negb andb orb]
  | |- wp _ (_readReg _ _) _ _ =>
      eapply wp_Ret; [apply readReg_eq|]; cbn beta iota
  | |- wp _ (_writeReg _ _ _) _ _ =>
      eapply wp_Ret; [apply writeReg_eq|]; cbn beta iota
  | |- wp _ (_readRSSI _ _ false) _ _ =>
      eapply wp_Ret; [apply readRSSI_eq|]; cbn beta iota
  | |- wp _ (spi_xfer _ _) _ _ => wp_prim
  | |- wp _ select _ _ => wp_prim
  | |- wp _ unselect _ _ => wp_prim
  | |- wp _ (time_sleep _) _ _ => wp_prim
  | |- wp _ has_received_packet _ _ => wp_prim
  end.
Ltac wp_run := repeat wp_step.

(** ** The mode the chip was told to take *)

Section Agreement.
Context `{Registers}.
Variable miso : nat -> nat -> Z.
Variable fuel : nat.

#[global] Instance calm_preorder : PreOrder calm.
Proof.
  split.
  - intros s. unfold calm. auto.
  - intros s1 s2 s3 (P1 & M1 & L1) (P2 & M2 & L2). unfold calm.
    split; [etransitivity; eassumption|]. split; congruence.
Qed.

#[global] Instance steady_preorder : PreOrder steady.
Proof.
  split.
  - intros s. unfold steady. auto.
  - intros s1 s2 s3 (P1 & J1) (P2 & J2). unfold steady.
    split; [etransitivity; eassumption|auto].
Qed.

Lemma calm_steady s s' : calm s s' -> steady s s'.
Proof.
  intros (P & M & L). split; [exact P|].
  unfold listening_agrees, told_to_receive. rewrite M, L. auto.
Qed.

Lemma last_opmode_write_snoc log req :
  last_opmode_write (log ++ [req]) =
  if decide (head req = Some (Z.lor REG_OPMODE 0x80)) then Some (nth 1 req 0)
  else last_opmode_write log.
Proof.
  unfold last_opmode_write. rewrite filter_app, filter_cons, filter_nil.
  destruct (decide _); [rewrite last_snoc; reflexivity|].
  rewrite app_nil_r. reflexivity.
Qed.

Lemma calm_bus req s :
  head req <> Some (Z.lor REG_OPMODE 0x80) -> calm s (bus req s).
Proof.
  intros Hne. unfold calm. simpl_state.
  split; [apply prefix_app_r; reflexivity|]. split; [reflexivity|].
  rewrite last_opmode_write_snoc, decide_False by exact Hne. reflexivity.
Qed.

Lemma calm_same s s' :
  spi_log s' = spi_log s -> mode s' = mode s -> calm s s'.
Proof. intros El Em. unfold calm. rewrite El, Em. auto. Qed.

Lemma calm_readReg addr : respects calm (_readReg miso addr).
Proof.
  intros s. eapply wp_Ret; [apply readReg_eq|]. apply calm_bus.
  cbn. intros [= E]. exact (read_head_not_write _ _ E).
Qed.

Lemma calm_writeReg addr value :
  Z.lor addr 0x80 <> Z.lor REG_OPMODE 0x80 -> respects calm (_writeReg miso addr value).
Proof.
  intros Hne s. eapply wp_Ret; [apply writeReg_eq|]. apply calm_bus.
  cbn. intros [= E]. exact (Hne E).
Qed.

Lemma calm_xfer req :
  head req <> Some (Z.lor REG_OPMODE 0x80) -> respects calm (spi_xfer miso req).
Proof.
  intros Hne s. eapply wp_Ret; [reflexivity|]. unfold calm. simpl_state.
  split; [apply prefix_app_r; reflexivity|]. split; [reflexivity|].
  rewrite last_opmode_write_snoc, decide_False by exact Hne. reflexivity.
Qed.


Lemma calm_modify f :
  (forall s, spi_log (f s) = spi_log s) -> (forall s, mode (f s) = mode s) ->
  respects calm (modify f).
Proof. intros Hl Hm. apply respects_modify. intros s. apply calm_same; auto. Qed.

Lemma calm_readRSSI : respects calm (_readRSSI miso fuel false).
Proof.
  intros s. eapply wp_Ret; [apply readRSSI_eq|]. apply calm_bus.
  cbn. intros [= E]. exact (read_head_not_write _ _ E).
Qed.

End Agreement.

(** One step through the structure of a method, down to the primitives. *)
Ltac respects_step :=
  lazymatch goal with
  | |- respects _ (bind _ _) => apply respects_bind; [|intros ?]
  | |- respects _ (ret _) => apply respects_ret
  | |- respects _ (gets _) => apply respects_gets
  | |- respects _ has_received_packet => apply respects_gets
  | |- respects _ (when _ _) => apply respects_when
  | |- respects _ (while _ _ _) => apply respects_while
  | |- respects _ (if _ then _ else _) => apply respects_if
  | |- respects _ (match ?x with Some _ => _ | None => _ end) => destruct x
  | |- respects calm (_readReg _ _) => apply calm_readReg
  | |- respects calm (_readRSSI _ _ false) => apply calm_readRSSI
  | |- respects calm (_writeReg _ _ _) => apply calm_writeReg; assumption
  | |- respects calm (spi_xfer _ _) => apply calm_xfer
  | |- respects calm (modify _) => apply calm_modify; intros ?; reflexivity
  | |- respects calm select => apply calm_modify; intros ?; reflexivity
  | |- respects calm unselect => apply calm_modify; intros ?; reflexivity
  | |- respects calm (time_sleep _) => apply calm_modify; intros ?; reflexivity
  | |- respects steady (_readReg _ _) => apply (respects_weaken calm steady); [exact calm_steady|]
  | |- respects steady (_readRSSI _ _ false) => apply (respects_weaken calm steady); [exact calm_steady|]
  | |- respects steady (_writeReg _ _ _) => apply (respects_weaken calm steady); [exact calm_steady|]
  | |- respects steady (spi_xfer _ _) => apply (respects_weaken calm steady); [exact calm_steady|]
  | |- respects steady (modify _) => apply (respects_weaken calm steady); [exact calm_steady|]
  | |- respects steady select => apply (respects_weaken calm steady); [exact calm_steady|]
  | |- respects steady unselect => apply (respects_weaken calm steady); [exact calm_steady|]
  | |- respects steady (time_sleep _) => apply (respects_weaken calm steady); [exact calm_steady|]
  end.
Ltac respects_run := repeat respects_step.


(** ** The acknowledgement table *)

Lemma entries_for_lookup k (table : gmap Z Z) :
  entries_for k table = match table !! k with Some _ => 1%nat | None => 0%nat end.
Proof.
  unfold entries_for. induction table as [|i x m Hi IH] using map_ind.
  - rewrite map_to_list_empty, lookup_empty. reflexivity.
  - rewrite (Permutation_length
               (filter_Permutation _ _ _ (map_to_list_insert m i x Hi))).
    rewrite filter_cons. cbn [fst]. destruct (decide (i = k)) as [->|Hne].
    + rewrite lookup_insert_eq. cbn [length]. rewrite IH, Hi. reflexivity.
    + rewrite lookup_insert_ne by exact Hne. exact IH.
Qed.

Lemma setdefault_lookup k (table : gmap Z Z) :
  is_Some (setdefault k 1 table !! k).
Proof.
  unfold setdefault. destruct (table !! k) eqn:E.
  - rewrite E. eauto.
  - rewrite lookup_insert_eq. eauto.
Qed.

Lemma setdefault_again k (table : gmap Z Z) :
  setdefault k 1 (setdefault k 1 table) = setdefault k 1 table.
Proof.
  destruct (setdefault_lookup k table) as [v E].
  unfold setdefault at 1. rewrite E. reflexivity.
Qed.

Lemma setdefault_other k j (table : gmap Z Z) :
  j <> k -> setdefault k 1 table !! j = table !! j.
Proof.
  intros Hne. unfold setdefault. destruct (table !! k); [reflexivity|].
  apply lookup_insert_ne. congruence.
Qed.

Lemma ACKReceived_eq fromNodeID s :
  _ACKReceived fromNodeID s =
  match acks s !! fromNodeID with
  | Some _ => Ret true (set_acks (delete fromNodeID (acks s)) s)
  | None => Ret false s
  end.
Proof.
  unfold _ACKReceived, bind, gets. destruct (acks s !! fromNodeID); reflexivity.
Qed.

(** ** Transmit power *)



Section PowerLevel.
Context `{Registers}.
Variable miso : nat -> nat -> Z.

End PowerLevel.

(** ** Operating mode *)

Section ModeFacts.
Context `{Registers}.
Variable miso : nat -> nat -> Z.
Variable fuel : nat.

Lemma known_modes :
  known_mode RF69_MODE_TX = true /\ known_mode RF69_MODE_RX = true /\
  known_mode RF69_MODE_STANDBY = true.
Proof.
  unfold known_mode. rewrite !Z.eqb_refl, ?orb_true_r. auto.
Qed.

Lemma modes_apart :
  modes_distinct ->
  mode_is (Some RF69_MODE_RX) RF69_MODE_SLEEP = false /\
  mode_is (Some RF69_MODE_STANDBY) RF69_MODE_SLEEP = false /\
  mode_is (Some RF69_MODE_TX) RF69_MODE_SLEEP = false /\
  mode_is (Some RF69_MODE_RX) RF69_MODE_STANDBY = false /\
  mode_is (Some RF69_MODE_STANDBY) RF69_MODE_RX = false /\
  (RF69_MODE_STANDBY =? RF69_MODE_TX) = false /\
  (RF69_MODE_STANDBY =? RF69_MODE_RX) = false /\
  (RF69_MODE_STANDBY =? RF69_MODE_SYNTH) = false /\
  (RF69_MODE_RX =? RF69_MODE_TX) = false.
Proof.
  unfold modes_distinct. intros Hd.
  repeat (apply NoDup_cons in Hd as [? Hd]).
  repeat match goal with
         | Hn : _ ∉ _ :: _ |- _ => apply not_elem_of_cons in Hn as [? ?]
         end.
  cbn. repeat split; apply Z.eqb_neq; congruence.
Qed.

Lemma write_opmode_eq name bits s :
  write_opmode miso name bits s =
  Ret tt (bus [Z.lor REG_OPMODE 0x80; Z.lor (Z.land (rx_byte miso s 1) 0xE3) bits]
            (bus [Z.land REG_OPMODE 0x7F; 0] (set_mode_name name s))).
Proof.
  unfold write_opmode.
  rewrite (bind_Ret _ _ _ tt (set_mode_name name s)) by reflexivity.
  rewrite (bind_Ret _ _ _ _ _ (readReg_eq miso _ _)).
  rewrite writeReg_eq. reflexivity.
Qed.

Lemma setHighPowerRegs_eq onOff s :
  _setHighPowerRegs miso onOff s =
  Ret tt (bus [Z.lor REG_TESTPA2 0x80; if onOff then 0x7C else 0x70]
            (bus [Z.lor REG_TESTPA1 0x80; if onOff then 0x5D else 0x55] s)).
Proof.
  destruct onOff; unfold _setHighPowerRegs;
    rewrite (bind_Ret _ _ _ _ _ (writeReg_eq miso _ _ _)), writeReg_eq; reflexivity.
Qed.

Lemma setMode_branch_spec newMode s :
  exists s', setMode_branch miso newMode s = Ret (known_mode newMode) s' /\
    tables s' = tables s /\ mode s' = mode s /\
    (known_mode newMode = false -> s' = set_mode_name "Unknown" s).
Proof.
  assert (Hw : wp true (setMode_branch miso newMode) s
                 (fun known s' =>
                    known = known_mode newMode /\ tables s' = tables s /\ mode s' = mode s /\
                    (known = false -> s' = set_mode_name "Unknown" s))).
  { unfold setMode_branch, known_mode.
    destruct (newMode =? RF69_MODE_TX); [|destruct (newMode =? RF69_MODE_RX);
      [|destruct (newMode =? RF69_MODE_SYNTH); [|destruct (newMode =? RF69_MODE_STANDBY);
      [|destruct (newMode =? RF69_MODE_SLEEP)]]]].
    all: try (wp_step; eapply wp_Ret; [apply write_opmode_eq|]; cbn beta).
    all: wp_run; simpl_state.
    all: try (destruct (isRFM69HW s) eqn:Hhw;
              [unfold when at 1; eapply wp_Ret; [apply setHighPowerRegs_eq|]; cbn beta|];
              wp_run; simpl_state).
    all: unfold tables; simpl_state; rewrite ?Hhw.
    all: repeat split; try reflexivity; discriminate. }
  destruct (wp_total_returns _ _ _ Hw) as (known & s' & E & -> & Ht & Hm & Hu).
  exists s'. auto.
Qed.

Lemma setMode_branch_opmode newMode s known s' :
  opmode_private ->
  setMode_branch miso newMode s = Ret known s' ->
  opmode_writes (spi_log s') =
  (opmode_writes (spi_log s) + if known then 1 else 0)%nat.
Proof.
  intros [Hp1 Hp2] E.
  assert (Hw : wp false (setMode_branch miso newMode) s
                 (fun known s' =>
                    opmode_writes (spi_log s') =
                    (opmode_writes (spi_log s) + if known then 1 else 0)%nat)).
  { unfold setMode_branch.
    destruct (newMode =? RF69_MODE_TX); [|destruct (newMode =? RF69_MODE_RX);
      [|destruct (newMode =? RF69_MODE_SYNTH); [|destruct (newMode =? RF69_MODE_STANDBY);
      [|destruct (newMode =? RF69_MODE_SLEEP)]]]].
    all: try (wp_step; eapply wp_Ret; [apply write_opmode_eq|]; cbn beta).
    all: wp_run; simpl_state.
    all: try (destruct (isRFM69HW s) eqn:Hhw;
              [unfold when at 1; eapply wp_Ret; [apply setHighPowerRegs_eq|]; cbn beta|];
              wp_run; simpl_state).
    all: repeat first [ rewrite (opmode_writes_other _ _ _ Hp1)
                      | rewrite (opmode_writes_other _ _ _ Hp2)
                      | rewrite opmode_writes_write
                      | rewrite opmode_writes_read ]; lia. }
  exact (wp_Ret_inv _ _ _ _ _ Hw E).
Qed.

Lemma sleep_wait_wp t s :
  (t = true -> mode_is (mode s) RF69_MODE_SLEEP = false) ->
  wp t (while fuel (leaving_sleep_not_ready miso) (ret tt)) s
    (fun _ s' => tables s' = tables s /\ mode s' = mode s /\
                 opmode_writes (spi_log s') = opmode_writes (spi_log s)).
Proof.
  intros Ht. destruct t.
  - apply wp_while_exit. unfold leaving_sleep_not_ready. wp_run.
    rewrite Ht by reflexivity. wp_run. auto.
  - apply wp_while with
      (Inv := fun s' => tables s' = tables s /\ mode s' = mode s /\
                        opmode_writes (spi_log s') = opmode_writes (spi_log s));
      [auto | | reflexivity].
    intros s1 (Ht1 & Hm1 & Ho1). unfold leaving_sleep_not_ready. wp_run.
    destruct (mode_is (mode s1) RF69_MODE_SLEEP).
    + wp_run. simpl_state.
      match goal with |- context [Z.eqb ?a ?b] => destruct (Z.eqb a b) end;
        wp_run; simpl_state; rewrite opmode_writes_read; auto.
    + wp_run. auto.
Qed.

Lemma setMode_wp t newMode s :
  known_mode newMode = true ->
  (t = true -> mode_is (mode s) RF69_MODE_SLEEP = false) ->
  wp t (_setMode miso fuel newMode) s
    (fun _ s' => tables s' = tables s /\ mode s' = Some newMode).
Proof.
  intros Hk Ht. unfold _setMode. wp_run.
  destruct (mode_is (mode s) newMode) eqn:Hcur.
  - wp_run. split; [reflexivity|]. destruct (mode s) as [c|]; [|discriminate].
    cbn in Hcur. apply Z.eqb_eq in Hcur. congruence.
  - destruct (setMode_branch_spec newMode s) as (s1 & E & Ht1 & Hm1 & _).
    wp_step. eapply wp_Ret; [exact E|]. cbn beta. rewrite Hk.
    wp_step. eapply wp_mono; [apply sleep_wait_wp; rewrite Hm1; exact Ht|].
    cbn beta. intros _ s2 (Ht2 & Hm2 & _). wp_run. simpl_state.
    split; [solve_tables|reflexivity].
Qed.

(** C9.  Two calls of [_setMode] in a row with the same target.  The
    first one returns whenever the driver is not asleep.  Whenever it
    returns, the second one returns the same object whatever its fuel: it
    issues no transfer, hence no register read or write, and leaves the
    stored mode as it is.  The first call itself writes the
    operating-mode register once when the target is a mode of the chip
    other than the current one, and not at all otherwise: one write at
    most for the two calls. *)
Theorem setMode_twice newMode s :
  opmode_private ->
  (mode_is (mode s) RF69_MODE_SLEEP = false ->
   exists s1, _setMode miso fuel newMode s = Ret tt s1) /\
  (forall s1,
     _setMode miso fuel newMode s = Ret tt s1 ->
     (forall fuel', _setMode miso fuel' newMode s1 = Ret tt s1) /\
     opmode_writes (spi_log s1) =
     (opmode_writes (spi_log s)
      + if mode_is (mode s) newMode then 0
        else if known_mode newMode then 1 else 0)%nat).
Proof.
  intros Hp.
  destruct (setMode_branch_spec newMode s) as (sb & Eb & Htb & Hmb & Hub).
  split.
  - intros Hawake. destruct (known_mode newMode) eqn:Hk.
    + destruct (wp_total_returns _ _ _ (setMode_wp true newMode s Hk (fun _ => Hawake)))
        as ([] & s1 & E & _).
      exists s1. exact E.
    + unfold _setMode, bind, gets. destruct (mode_is (mode s) newMode); [eexists; reflexivity|].
      rewrite Eb. eexists. reflexivity.
  - intros s1. unfold _setMode at 1. unfold bind at 1, gets at 1.
    destruct (mode_is (mode s) newMode) eqn:Hcur.
    + intros [= <-]. split; [|lia].
      intros fuel'. unfold _setMode, bind, gets. rewrite Hcur. reflexivity.
    + unfold bind at 1. rewrite Eb.
      pose proof (setMode_branch_opmode _ _ _ _ Hp Eb) as Hcount.
      destruct (known_mode newMode) eqn:Hk.
      * intros E.
        assert (Hw : wp false
                  (while fuel (leaving_sleep_not_ready miso) (ret tt) ;;
                   modify (set_mode (Some newMode))) sb
                  (fun _ s' => mode s' = Some newMode /\
                     opmode_writes (spi_log s') = opmode_writes (spi_log sb))).
        { wp_step. eapply wp_mono; [apply sleep_wait_wp; discriminate|].
          cbn beta. intros _ s2 (_ & _ & Ho). wp_run. simpl_state. auto. }
        destruct (wp_Ret_inv _ _ _ _ _ Hw E) as [Hm1 Ho1]. split; [|lia].
        intros fuel'. unfold _setMode, bind, gets. rewrite Hm1. cbn [mode_is].
        rewrite Z.eqb_refl. reflexivity.
      * intros [= <-]. rewrite (Hub eq_refl) in *. split; [|lia].
        intros fuel'. unfold _setMode, bind, gets. simpl_state. rewrite Hcur.
        destruct (setMode_branch_spec newMode (set_mode_name "Unknown" s))
          as (sb' & Eb' & _ & _ & Hub').
        rewrite Eb', Hk, (Hub' Hk). reflexivity.
Qed.

End ModeFacts.

(** ** Agreement of the stored mode and the chip *)

Section ModeLog.
Context `{Registers}.
Variable miso : nat -> nat -> Z.
Variable fuel : nat.

Lemma mode_bits_receiver reg :
  mode_bits RF_OPMODE_RECEIVER = RF_OPMODE_RECEIVER ->
  mode_bits (Z.lor (Z.land reg 0xE3) RF_OPMODE_RECEIVER) = RF_OPMODE_RECEIVER.
Proof.
  unfold mode_bits. intros E.
  rewrite Z.land_lor_distr_l, <- Z.land_assoc, E.
  change (Z.land 0xE3 0x1C) with 0. rewrite Z.land_0_r. reflexivity.
Qed.

Lemma calm_sleep_wait :
  respects calm (while fuel (leaving_sleep_not_ready miso) (ret tt)).
Proof. unfold leaving_sleep_not_ready. respects_run. Qed.


Lemma told_after_receiver_write log reg :
  opmode_exclusive ->
  told_to_receive
    (log ++ [[Z.lor REG_OPMODE 0x80; Z.lor (Z.land reg 0xE3) RF_OPMODE_RECEIVER]]).
Proof.
  intros (_ & _ & _ & _ & Hbits). eexists. split.
  - rewrite last_opmode_write_snoc, decide_True by reflexivity. reflexivity.
  - apply mode_bits_receiver, Hbits.
Qed.

Lemma told_after_other log req :
  head req <> Some (Z.lor REG_OPMODE 0x80) ->
  told_to_receive log -> told_to_receive (log ++ [req]).
Proof.
  intros Hne (v & E & Hb). exists v. split; [|exact Hb].
  rewrite last_opmode_write_snoc, decide_False by exact Hne. exact E.
Qed.

Lemma setMode_branch_log newMode s :
  modes_distinct -> opmode_exclusive ->
  wp false (setMode_branch miso newMode) s
    (fun known sb =>
       mode sb = mode s /\ spi_log s `prefix_of` spi_log sb /\
       (known = false -> spi_log sb = spi_log s) /\
       (newMode = RF69_MODE_RX -> told_to_receive (spi_log sb))).
Proof.
  intros Hd Hx. pose proof Hx as ((Hp1 & Hp2) & _).
  destruct (modes_apart Hd) as (A1 & A2 & A3 & A4 & A5 & A6 & A7 & A8 & A9).
  unfold setMode_branch.
  destruct (newMode =? RF69_MODE_TX) eqn:Etx; [|destruct (newMode =? RF69_MODE_RX) eqn:Erx;
    [|destruct (newMode =? RF69_MODE_SYNTH); [|destruct (newMode =? RF69_MODE_STANDBY);
    [|destruct (newMode =? RF69_MODE_SLEEP)]]]].
  all: try (wp_step; eapply wp_Ret; [apply write_opmode_eq|]; cbn beta).
  all: wp_run; simpl_state.
  all: try (destruct (isRFM69HW s);
            [unfold when at 1; eapply wp_Ret; [apply setHighPowerRegs_eq|]; cbn beta|];
            wp_run; simpl_state).
  all: split; [reflexivity|]; split; [solve_prefix|]; split; [try discriminate; try reflexivity|].
  all: intros ->; rewrite ?Z.eqb_refl in *; try discriminate; try congruence.
  all: repeat (apply told_after_other; [cbn; intros [= E]; auto|]).
  all: apply told_after_receiver_write; exact Hx.
Qed.

Lemma steady_setMode newMode :
  modes_distinct -> opmode_exclusive -> respects steady (_setMode miso fuel newMode).
Proof.
  intros Hd Hx s. unfold _setMode. wp_run.
  destruct (mode_is (mode s) newMode); [wp_run; reflexivity|].
  wp_step. eapply wp_mono; [apply (setMode_branch_log newMode s Hd Hx)|].
  cbn beta. intros known sb (Hm & Hp & Hu & Hr). destruct known.
  - wp_step. eapply wp_mono; [apply calm_sleep_wait|].
    cbn beta. intros _ s2 (Hp2 & Hm2 & Hl2). wp_run. split.
    + simpl_state. etransitivity; eassumption.
    + intros _. unfold listening_agrees. simpl_state. intros [= ->].
      unfold told_to_receive. rewrite Hl2. apply Hr. reflexivity.
  - wp_run. split; [exact Hp|]. unfold listening_agrees.
    rewrite Hm, (Hu eq_refl). auto.
Qed.

End ModeLog.

Ltac respects_auto :=
  repeat first
    [ respects_step
    | lazymatch goal with
      | |- respects steady (_setMode _ _ _) => apply steady_setMode; assumption
      end ].

Section PathsLog.
Context `{Registers}.
Variable miso : nat -> nat -> Z.
Variable fuel : nat.
Hypothesis Hd : modes_distinct.
Hypothesis Hx : opmode_exclusive.

Lemma steady_begin_receive : respects steady (begin_receive miso fuel).
Proof.
  pose proof Hx as (_ & Hdio & Hcfg & _).
  unfold begin_receive. respects_auto.
Qed.

Lemma steady_canSend : respects steady (_canSend miso fuel).
Proof.
  unfold _canSend. respects_auto. apply steady_begin_receive.
Qed.

Lemma steady_sendFrame toAddress buff requestACK sendACK :
  respects steady (_sendFrame miso fuel toAddress buff requestACK sendACK).
Proof.
  pose proof Hx as (_ & Hdio & Hcfg & Hfifo & _).
  unfold _sendFrame. cbv zeta. respects_auto.
  cbn. intros [= E]. exact (Hfifo E).
Qed.

Lemma steady_send_ack toAddress buff :
  respects steady (send_ack miso fuel toAddress buff).
Proof.
  unfold send_ack. respects_auto; [apply steady_canSend|apply steady_sendFrame].
Qed.

Lemma steady_accept_frame payload_length target_id sender_id CTLbyte :
  respects steady (accept_frame miso fuel payload_length target_id sender_id CTLbyte).
Proof.
  unfold accept_frame. cbv zeta. respects_auto.
  - cbn. intros [= E]. exact (read_head_not_write _ _ E).
  - apply steady_send_ack.
Qed.

End PathsLog.

(** ** Resuming reception *)

Section Resume.
Context `{Registers}.
Variable miso : nat -> nat -> Z.
Variable fuel : nat.

Lemma setMode_rx_log s :
  modes_distinct ->
  mode_is (mode s) RF69_MODE_RX = false ->
  mode_is (mode s) RF69_MODE_SLEEP = false ->
  wp true (_setMode miso fuel RF69_MODE_RX) s
    (fun _ s' =>
       tables s' = tables s /\ mode s' = Some RF69_MODE_RX /\
       spi_log s' =
       spi_log s
       ++ [[Z.land REG_OPMODE 0x7F; 0];
           [Z.lor REG_OPMODE 0x80;
            Z.lor (Z.land (rx_byte miso s 1) 0xE3) RF_OPMODE_RECEIVER]]
       ++ (if isRFM69HW s
           then [[Z.lor REG_TESTPA1 0x80; 0x55]; [Z.lor REG_TESTPA2 0x80; 0x70]]
           else [])).
Proof.
  intros Hd Hrx Hsleep.
  destruct (modes_apart Hd) as (A1 & A2 & A3 & A4 & A5 & A6 & A7 & A8 & A9).
  unfold _setMode. wp_run. rewrite Hrx. wp_step.
  unfold setMode_branch. rewrite A9, Z.eqb_refl.
  wp_step. eapply wp_Ret; [apply write_opmode_eq|]. cbn beta. wp_run. simpl_state.
  destruct (isRFM69HW s) eqn:Hhw;
    [unfold when at 1; eapply wp_Ret; [apply setHighPowerRegs_eq|]; cbn beta|];
    wp_run.
  all: apply wp_while_exit; unfold leaving_sleep_not_ready; wp_run; simpl_state;
    rewrite Hsleep; wp_run; (split; [reflexivity|]); wp_run; simpl_state.
  all: unfold tables; simpl_state; rewrite ?Hhw.
  all: split; [reflexivity|]; split; [reflexivity|].
  all: rewrite <- ?app_assoc; reflexivity.
Qed.

Lemma begin_receive_resumes s :
  modes_distinct ->
  intLock s = false ->
  mode_is (mode s) RF69_MODE_RX = false ->
  mode_is (mode s) RF69_MODE_SLEEP = false ->
  wp true (begin_receive miso fuel) s
    (fun _ s' =>
       tables s' = tables s /\ mode s' = Some RF69_MODE_RX /\
       spi_log s' =
       spi_log s ++ resume_traffic miso (isRFM69HW s) (length (spi_log s))).
Proof.
  intros Hd Hlock Hrx Hsleep. unfold begin_receive.
  wp_step. apply wp_while_exit. wp_run. split; [exact Hlock|].
  wp_run. simpl_state. unfold resume_traffic.
  destruct (negb (Z.land (miso (length (spi_log s)) 1%nat mod 256)
                    RF_IRQFLAGS2_PAYLOADREADY =? 0)) eqn:Hflag; wp_run.
  all: (eapply wp_mono; [apply (setMode_rx_log _ Hd); simpl_state; assumption|]);
    cbn beta; intros _ s' (Ht & Hm & Hl); simpl_state.
  all: split; [exact Ht|]; split; [exact Hm|]; rewrite Hl.
  all: norm_len; rewrite <- ?app_assoc; cbn [app]; reflexivity.
Qed.

End Resume.


(** ** Sending *)

Section SendFacts.
Context `{Registers}.
Variable miso : nat -> nat -> Z.
Variable fuel : nat.

Lemma intLock_wait_wp t s :
  (t = true -> intLock s = false) ->
  wp t (while fuel (gets intLock) (time_sleep 100000)) s (quiet s).
Proof.
  intros Ht. unfold quiet. destruct t.
  - apply wp_while_exit. wp_run. rewrite Ht by reflexivity. auto.
  - apply wp_while with (Inv := fun s' => tables s' = tables s /\ mode s' = mode s);
      [auto | | reflexivity].
    intros s1 [Ht1 Hm1]. wp_run. destruct (intLock s1); [wp_run|]; auto.
Qed.

Lemma flag_wait_wp t reg flag body s :
  (t = true -> Z.land (rx_byte miso s 1) flag <> 0) ->
  (forall s0, wp false body s0 (quiet s0)) ->
  wp t (while fuel (flags <- _readReg miso reg ;; ret (Z.land flags flag =? 0x00)) body)
    s (quiet s).
Proof.
  intros Ht Hbody. unfold quiet. destruct t.
  - apply wp_while_exit. wp_run. simpl_state. split; [|auto].
    apply Z.eqb_neq. apply (Ht eq_refl).
  - apply wp_while with (Inv := fun s' => tables s' = tables s /\ mode s' = mode s);
      [auto | | reflexivity].
    intros s1 [Ht1 Hm1]. wp_run. simpl_state.
    match goal with |- context [Z.eqb ?a ?b] => destruct (Z.eqb a b) end.
    + eapply wp_mono; [apply Hbody|]. cbn beta. intros _ s2 [Ht2 Hm2].
      simpl_state. split; [solve_tables | congruence].
    + simpl_state. auto.
Qed.

Lemma calm_flag_wait reg flag body :
  respects calm body ->
  respects calm
    (while fuel (flags <- _readReg miso reg ;; ret (Z.land flags flag =? 0x00)) body).
Proof. intros Hb. respects_run. exact Hb. Qed.

Lemma begin_receive_wp t s :
  (t = true -> intLock s = false /\ mode_is (mode s) RF69_MODE_SLEEP = false) ->
  wp t (begin_receive miso fuel) s
    (fun _ s' => tables s' = tables s /\ mode s' = Some RF69_MODE_RX).
Proof.
  intros Ht. destruct known_modes as (_ & Hrx & _). unfold begin_receive.
  wp_step. eapply wp_mono; [apply intLock_wait_wp; intros ->; apply Ht; reflexivity|].
  cbn beta. intros _ s1 [Ht1 Hm1]. wp_run.
  match goal with |- context [negb ?b] => destruct b end; cbn [negb]; wp_run.
  all: (eapply wp_mono;
        [apply (setMode_wp miso fuel t _ _ Hrx); simpl_state; rewrite Hm1;
         intros ->; apply Ht; reflexivity|]);
    cbn beta; intros _ s2 [Ht2 Hm2]; split; [|exact Hm2]; simpl_state; solve_tables.
Qed.

Lemma canSend_wp t s :
  (t = true -> modes_distinct /\ intLock s = false /\ mode s = Some RF69_MODE_STANDBY) ->
  wp t (_canSend miso fuel) s
    (fun clear s' =>
       tables s' = tables s /\
       (t = true -> clear = true /\ mode s' = Some RF69_MODE_RX)).
Proof.
  intros Ht. destruct known_modes as (_ & _ & Hstandby). unfold _canSend. wp_run.
  destruct (mode_is (mode s) RF69_MODE_STANDBY) eqn:Hcur.
  - wp_step. eapply wp_mono.
    { apply begin_receive_wp. intros ->. destruct (Ht eq_refl) as (Hd & Hl & Hm).
      split; [exact Hl|]. rewrite Hm. apply (modes_apart Hd). }
    cbn beta. intros _ s1 [Ht1 Hm1]. wp_run. auto.
  - destruct t.
    { destruct (Ht eq_refl) as (_ & _ & Hm). rewrite Hm in Hcur. cbn in Hcur.
      rewrite Z.eqb_refl in Hcur. discriminate. }
    destruct (mode_is (mode s) RF69_MODE_RX); [|wp_run; split; [reflexivity|discriminate]].
    wp_run. simpl_state.
    match goal with |- context [Z.ltb ?a ?b] => destruct (Z.ltb a b) end.
    + wp_step. eapply wp_mono; [apply (setMode_wp miso fuel false _ _ Hstandby); discriminate|].
      cbn beta. intros _ s1 [Ht1 Hm1]. wp_run. split; [solve_tables|discriminate].
    + wp_run. split; [reflexivity|discriminate].
Qed.

Lemma sendFrame_wp t toAddress buff requestACK sendACK s :
  (t = true -> modes_distinct /\ opmode_exclusive /\
               chip_ready_from (length (spi_log s)) miso /\
               mode_is (mode s) RF69_MODE_SLEEP = false) ->
  wp t (_sendFrame miso fuel toAddress buff requestACK sendACK) s
    (fun _ s' => tables s' = tables s /\ mode s' = Some RF69_MODE_RX).
Proof.
  intros Ht. destruct known_modes as (Htx & Hrx & Hstandby). unfold _sendFrame.
  wp_step. eapply wp_mono.
  { apply (wp_also_if steady).
    - apply (setMode_wp miso fuel t _ _ Hstandby). intros ->. apply (Ht eq_refl).
    - intros ->. apply steady_setMode; apply (Ht eq_refl). }
  cbn beta. intros _ s1 [[Ht1 Hm1] Hs1].
  wp_step. eapply wp_mono.
  { apply (wp_also_if calm).
    - apply flag_wait_wp.
      + intros ->. destruct (Ht eq_refl) as (_ & _ & Hc & _). specialize (Hs1 eq_refl).
        apply (Hc (length (spi_log s1))). len_facts. lia.
      + intros s0. wp_run. split; reflexivity.
    - intros _. apply calm_flag_wait. apply respects_ret. }
  cbn beta. intros _ s2 [[Ht2 Hm2] Hs2]. wp_run.
  eapply wp_mono.
  { apply (wp_also_if steady).
    - apply (setMode_wp miso fuel t _ _ Htx). intros ->. simpl_state.
      rewrite Hm2, Hm1. apply (modes_apart (proj1 (Ht eq_refl))).
    - intros ->. apply steady_setMode; apply (Ht eq_refl). }
  cbn beta. intros _ s3 [[Ht3 Hm3] Hs3].
  wp_step. eapply wp_mono.
  { apply flag_wait_wp.
    - intros ->. destruct (Ht eq_refl) as (_ & _ & Hc & _).
      specialize (Hs1 eq_refl). specialize (Hs2 eq_refl). specialize (Hs3 eq_refl).
      apply (Hc (length (spi_log s3))). len_facts. lia.
    - intros s0. wp_run. split; reflexivity. }
  cbn beta. intros _ s4 [Ht4 Hm4].
  eapply wp_mono.
  { apply (setMode_wp miso fuel t _ _ Hrx). intros ->.
    rewrite Hm4, Hm3. apply (modes_apart (proj1 (Ht eq_refl))). }
  cbn beta. intros _ s5 [Ht5 Hm5]. split; [|exact Hm5]. simpl_state. solve_tables.
Qed.

Lemma send_ack_wp t toAddress buff s :
  (t = true -> modes_distinct /\ opmode_exclusive /\
               chip_ready_from (length (spi_log s)) miso /\ intLock s = false /\
               mode s = Some RF69_MODE_STANDBY) ->
  wp t (send_ack miso fuel toAddress buff) s
    (fun _ s' => tables s' = tables s /\ mode s' = Some RF69_MODE_RX).
Proof.
  intros Ht. unfold send_ack. wp_step.
  apply wp_mono with
    (Q := fun _ s' => tables s' = tables s /\
                      (t = true -> mode s' = Some RF69_MODE_RX /\
                                   spi_log s `prefix_of` spi_log s')).
  - destruct t.
    + destruct (Ht eq_refl) as (Hd & Hx & Hc & Hl & Hm).
      apply wp_while_exit. wp_step. eapply wp_mono.
      { apply (wp_also (R := steady)); [apply canSend_wp; auto|].
        apply steady_canSend; assumption. }
      cbn beta. intros clear s1 [[Ht1 Hp1] [Hs1 _]]. destruct (Hp1 eq_refl) as [-> Hm1].
      wp_run. auto.
    + apply wp_while with (Inv := fun s' => tables s' = tables s);
        [reflexivity | | reflexivity].
      intros s1 Ht1. wp_step. eapply wp_mono; [apply canSend_wp; discriminate|].
      cbn beta. intros clear s2 [Ht2 _]. wp_run.
      destruct clear; cbn [negb]; [|wp_run]; (split; [solve_tables | discriminate])
        || solve_tables.
  - cbn beta. intros _ s1 [Ht1 Hm1].
    eapply wp_mono.
    { apply sendFrame_wp. intros ->. destruct (Ht eq_refl) as (Hd & Hx & Hc & _ & _).
      destruct (Hm1 eq_refl) as [Hm1' Hp1]. rewrite Hm1'.
      split; [exact Hd|]. split; [exact Hx|]. split; [|apply (modes_apart Hd)].
      intros k Hk. apply Hc. len_facts. lia. }
    cbn beta. intros _ s2 [Ht2 Hm2]. split; [solve_tables | exact Hm2].
Qed.

End SendFacts.

(** ** The interrupt handler *)

Section HandlerFacts.
Context `{Registers}.
Variable miso : nat -> nat -> Z.
Variable fuel : nat.

Lemma setMode_standby_from_rx s :
  modes_distinct -> mode s = Some RF69_MODE_RX ->
  _setMode miso fuel RF69_MODE_STANDBY s =
  Ret tt (set_mode (Some RF69_MODE_STANDBY)
            (bus [Z.lor REG_OPMODE 0x80;
                  Z.lor (Z.land (rx_byte miso s 1) 0xE3) RF_OPMODE_STANDBY]
               (bus [Z.land REG_OPMODE 0x7F; 0] (set_mode_name "Standby" s)))).
Proof.
  intros Hd Hm.
  destruct (modes_apart Hd) as (A1 & A2 & A3 & A4 & A5 & A6 & A7 & A8 & A9).
  unfold _setMode, bind at 1, gets at 1. rewrite Hm, A4.
  unfold setMode_branch. rewrite A6, A7, A8, Z.eqb_refl.
  unfold bind at 1. unfold bind at 1. cbn [write_opmode].
  rewrite while_unfold. unfold leaving_sleep_not_ready. cbn.
  unfold bind, gets. simpl_state. rewrite Hm, A1. reflexivity.
Qed.

Lemma interruptHandler_wp t pin s :
  modes_distinct ->
  (t = true -> frame_ready miso s = true /\
               (reply_due miso s = true ->
                opmode_exclusive /\ chip_ready_from (length (spi_log s) + 6) miso)) ->
  wp t (_interruptHandler miso fuel pin) s
    (fun _ s' =>
       (packets s', acks s') = handler_tables miso s /\
       mode s' = Some RF69_MODE_RX /\ intLock s' = false).
Proof.
  intros Hd Ht.
  destruct (modes_apart Hd) as (A1 & A2 & A3 & A4 & A5 & A6 & A7 & A8 & A9).
  unfold _interruptHandler. wp_run. unfold payload_ready. wp_run. simpl_state.
  unfold handler_tables, reply_due, frame_ready, header_byte, rx_byte in *.
  destruct (mode_is (mode s) RF69_MODE_RX) eqn:Hrx; cbn [andb] in *.
  2:{ destruct t; [destruct (Ht eq_refl) as [Hx _]; discriminate Hx|]. wp_run.
      eapply wp_mono; [apply begin_receive_wp; discriminate|]. cbn beta.
      intros _ s1 [Ht1 Hm1]. simpl_state. unfold tables in Ht1. simpl_state.
      split; [congruence|]. split; [exact Hm1|congruence]. }
  wp_run. simpl_state.
  destruct (negb (Z.land (miso (length (spi_log s)) 1%nat mod 256)
                    RF_IRQFLAGS2_PAYLOADREADY =? 0)) eqn:Hflag;
    cbn [andb] in *.
  2:{ destruct t; [destruct (Ht eq_refl) as [Hx _]; discriminate Hx|]. wp_run.
      eapply wp_mono; [apply begin_receive_wp; discriminate|]. cbn beta.
      intros _ s1 [Ht1 Hm1]. simpl_state. unfold tables in Ht1. simpl_state.
      split; [congruence|]. split; [exact Hm1|congruence]. }
  unfold handle_payload. wp_step.
  eapply wp_Ret; [apply setMode_standby_from_rx; [exact Hd|]|].
  { simpl_state. destruct (mode s) as [c|]; [|discriminate]. cbn in Hrx.
    apply Z.eqb_eq in Hrx. congruence. }
  cbn beta. wp_run. cbn [length seq map tail]. simpl_state. norm_len.
  wp_run. simpl_state. unfold passes_filter in *.
  set (n := length (spi_log s)) in *.
  destruct (promiscuousMode s || (miso (n + 3)%nat 2%nat mod 256 =? address s)
            || (miso (n + 3)%nat 2%nat mod 256 =? RF69_BROADCAST_ADDR)) eqn:Hpass;
    cbn [negb andb] in *.
  2:{ wp_run. eapply wp_mono.
      { apply begin_receive_wp. intros _. simpl_state. split; [reflexivity|exact A2]. }
      cbn beta. intros _ s1 [Ht1 Hm1]. wp_run. unfold tables in Ht1. simpl_state.
      split; [congruence|]. split; [exact Hm1|congruence]. }
  wp_step. unfold accept_frame. wp_run. simpl_state. norm_len. fold n.
  unfold is_ack_reply, asks_for_ack in *.
  rewrite repeat_length. cbn [seq map tail].
  assert (Hq : queued_packet miso s =
               mkPacket (miso (n + 3)%nat 2%nat mod 256) (miso (n + 3)%nat 3%nat mod 256)
                 (Z.shiftr (miso (n + 5)%nat 1%nat mod 256 * -1) 1)
                 (map (fun i => miso (n + 4)%nat i mod 256)
                    (seq 1 (Z.to_nat
                       ((if 66 <? miso (n + 3)%nat 1%nat mod 256 then 66
                         else miso (n + 3)%nat 1%nat mod 256) - 3)))))
    by reflexivity.
  rewrite Hq. clear Hq.
  set (pkt := mkPacket _ _ _ _).
  destruct (negb (Z.land (miso (n + 3)%nat 4%nat mod 256) 128 =? 0)) eqn:Hack;
    wp_run; simpl_state.
  all: destruct (negb (Z.land (miso (n + 3)%nat 4%nat mod 256) 64 =? 0)) eqn:Hreq;
    [destruct (auto_acknowledge s) eqn:Hauto|]; cbn [andb] in *; wp_run.
  all: try (eapply wp_mono;
            [ apply send_ack_wp; intros ->; destruct (Ht eq_refl) as [_ Hc];
              destruct (Hc eq_refl) as [Hx Hr];
              simpl_state; norm_len; fold n; auto 10
            | cbn beta; intros _ s1 [Ht1 Hm1]; wp_run ]).
  all: (eapply wp_mono;
        [ apply begin_receive_wp; intros _; simpl_state; rewrite ?Hm1; auto
        | cbn beta; intros _ s2 [Ht2 Hm2] ]).
  all: unfold tables in *; simpl_state.
  all: split; [congruence|]; split; [exact Hm2|congruence].
Qed.

(** Whenever the handler returns from a frame, the chip was last told to
    receive, and the bus log has only grown. *)
Lemma interruptHandler_agrees pin s :
  modes_distinct -> opmode_exclusive ->
  frame_ready miso s = true ->
  wp false (_interruptHandler miso fuel pin) s
    (fun _ s' => spi_log s `prefix_of` spi_log s' /\ listening_agrees s').
Proof.
  intros Hd Hx Hready.
  destruct (modes_apart Hd) as (A1 & A2 & A3 & A4 & A5 & A6 & A7 & A8 & A9).
  unfold frame_ready in Hready. apply andb_true_iff in Hready as [Hrx Hflag].
  unfold _interruptHandler. wp_run. unfold payload_ready. wp_run. simpl_state.
  rewrite Hrx. wp_run. simpl_state. rewrite Hflag.
  unfold handle_payload. wp_step.
  eapply wp_Ret; [apply setMode_standby_from_rx; [exact Hd|]|].
  { simpl_state. destruct (mode s) as [c|]; [|discriminate]. cbn in Hrx.
    apply Z.eqb_eq in Hrx. congruence. }
  cbn beta. wp_run. cbn [length seq map tail]. simpl_state.
  wp_run. simpl_state.
  match goal with |- context [negb ?b] => destruct b end; cbn [negb].
  - wp_step. eapply wp_mono; [apply steady_accept_frame; assumption|].
    cbn beta. intros _ s1 [P1 J1]. wp_run.
    eapply wp_mono; [apply steady_begin_receive; assumption|].
    cbn beta. intros _ s2 [P2 J2]. simpl_state. split.
    + etransitivity; [|exact P2]. etransitivity; [|exact P1]. solve_prefix.
    + apply J2. unfold listening_agrees in *. simpl_state. apply J1.
      intros [= E]. rewrite E, Z.eqb_refl in A7. discriminate.
  - wp_run. eapply wp_mono; [apply steady_begin_receive; assumption|].
    cbn beta. intros _ s2 [P2 J2]. wp_run. simpl_state. split.
    + etransitivity; [|exact P2]. solve_prefix.
    + apply J2. unfold listening_agrees. simpl_state.
      intros [= E]. rewrite E, Z.eqb_refl in A7. discriminate.
Qed.

(** The run of the handler on a frame the address filter rejects. *)
Lemma interruptHandler_discards pin s :
  modes_distinct ->
  frame_ready miso s = true ->
  passes_filter s (header_byte miso s 2) = false ->
  wp true (_interruptHandler miso fuel pin) s
    (fun _ s' => spi_log s' = spi_log s ++ discard_traffic miso s).
Proof.
  intros Hd Hready Hpass.
  destruct (modes_apart Hd) as (A1 & A2 & A3 & A4 & A5 & A6 & A7 & A8 & A9).
  unfold frame_ready in Hready. apply andb_true_iff in Hready as [Hrx Hflag].
  unfold passes_filter, header_byte in Hpass.
  unfold _interruptHandler. wp_run. unfold payload_ready. wp_run. simpl_state.
  rewrite Hrx. wp_run. simpl_state. rewrite Hflag.
  unfold handle_payload. wp_step.
  eapply wp_Ret; [apply setMode_standby_from_rx; [exact Hd|]|].
  { simpl_state. destruct (mode s) as [c|]; [|discriminate]. cbn in Hrx.
    apply Z.eqb_eq in Hrx. congruence. }
  cbn beta. wp_run. cbn [length seq map tail]. simpl_state. norm_len.
  wp_run. simpl_state. rewrite Hpass. cbn [negb]. wp_run.
  eapply wp_mono.
  { apply begin_receive_resumes; simpl_state; [exact Hd|reflexivity|exact A5|exact A2]. }
  cbn beta. intros _ s1 (_ & _ & Hl). wp_run. rewrite Hl. simpl_state.
  unfold discard_traffic. norm_len. rewrite <- ?app_assoc. reflexivity.
Qed.

Lemma snoc_shift {A} (l1 : list A) x y l2 :
  l1 ++ x :: y :: l2 = (l1 ++ [x]) ++ y :: l2.
Proof. rewrite <- app_assoc. reflexivity. Qed.

Lemma told_after_resume log hw k :
  opmode_exclusive -> told_to_receive (log ++ resume_traffic miso hw k).
Proof.
  intros Hx. pose proof Hx as ((Hp1 & Hp2) & _).
  unfold resume_traffic. cbv zeta.
  destruct (negb _), hw; cbn [app]; rewrite !snoc_shift.
  all: repeat (apply told_after_other; [cbn; intros [= E]; auto|]).
  all: apply told_after_receiver_write, Hx.
Qed.

(** C8.  A frame the handler reads while the driver receives and the
    payload-ready flag is up.  When promiscuous mode is off and the target
    is neither the own address nor the broadcast address, the handler
    returns, has queued nothing and recorded nothing, and reception is
    resumed: the bus has carried exactly the transfers of [discard_traffic]
    (the flags, the switch to standby, the header, then the transfers of
    [begin_receive]), the last write of the operating-mode register sets
    the mode bits to receive, and the stored mode is receive.  In every
    other case the frame is processed: the handler never raises; whenever
    it returns, the packet is at the end of the queue, or the
    acknowledgement is in the table, the bus log has only grown, the last
    write of the operating-mode register sets the mode bits to receive and
    the stored mode is receive; and it does return when no acknowledgement
    is to be sent back, or when the chip reports mode-ready and packet-sent
    from the seventh transfer of the run on (the six before it, the header
    and the payload among them, are free). *)
Theorem address_filter pin s :
  modes_distinct -> opmode_exclusive ->
  frame_ready miso s = true ->
  let target_id := header_byte miso s 2 in
  let sender_id := header_byte miso s 3 in
  let CTLbyte := header_byte miso s 4 in
  (passes_filter s target_id = false ->
   exists s',
     _interruptHandler miso fuel pin s = Ret tt s' /\
     packets s' = packets s /\ acks s' = acks s /\
     mode s' = Some RF69_MODE_RX /\ intLock s' = false /\
     spi_log s' = spi_log s ++ discard_traffic miso s /\
     told_to_receive (spi_log s')) /\
  (passes_filter s target_id = true ->
   (forall e s', _interruptHandler miso fuel pin s <> Raise e s') /\
   (forall s',
      _interruptHandler miso fuel pin s = Ret tt s' ->
      (packets s', acks s') =
        (if is_ack_reply CTLbyte
         then (packets s, setdefault sender_id 1 (acks s))
         else (packets s ++ [queued_packet miso s], acks s)) /\
      mode s' = Some RF69_MODE_RX /\ intLock s' = false /\
      spi_log s `prefix_of` spi_log s' /\
      told_to_receive (spi_log s')) /\
   (reply_due miso s = false \/ chip_ready_from (length (spi_log s) + 6) miso ->
    exists s', _interruptHandler miso fuel pin s = Ret tt s')).
Proof.
  intros Hd Hx Hready. cbv zeta. split; intros Hpass.
  - destruct (wp_total_returns _ _ _ (interruptHandler_wp true pin s Hd
        ltac:(intros _; split; [exact Hready|];
              unfold reply_due; rewrite Hready, Hpass; discriminate)))
      as ([] & s' & E & Ht & Hm & Hl).
    unfold handler_tables in Ht. rewrite Hready, Hpass in Ht. cbn [andb] in Ht.
    injection Ht as Hp Ha.
    pose proof (interruptHandler_discards pin s Hd Hready Hpass) as Hw.
    unfold wp in Hw. rewrite E in Hw.
    exists s'. do 6 (split; [assumption|]).
    rewrite Hw. unfold discard_traffic. rewrite app_assoc.
    apply told_after_resume, Hx.
  - pose proof (interruptHandler_wp false pin s Hd ltac:(discriminate)) as Hw.
    split; [|split].
    + intros e s' E. unfold wp in Hw. rewrite E in Hw. exact Hw.
    + intros s' E. destruct (wp_Ret_inv _ _ _ _ _ Hw E) as (Ht & Hm & Hl).
      unfold handler_tables in Ht. rewrite Hready, Hpass in Ht. cbn [andb] in Ht.
      pose proof (interruptHandler_agrees pin s Hd Hx Hready) as Hj.
      unfold wp in Hj. rewrite E in Hj. destruct Hj as [Hp Hj].
      do 4 (split; [assumption|]). apply Hj, Hm.
    + intros Hc.
      destruct (wp_total_returns _ _ _ (interruptHandler_wp true pin s Hd
          ltac:(intros _; split; [exact Hready|];
                destruct Hc as [Hno|Hc]; [rewrite Hno; discriminate|intros _; auto])))
        as ([] & s' & E & _).
      exists s'. exact E.
Qed.

(** C7.  The table of pending acknowledgements is a map from sender to
    presence, so it never holds two entries for a sender.  Whenever the
    handler returns, the table is the old one, or, when the frame read was
    an accepted acknowledgement reply, the old one with the sender present;
    the sender then has exactly one entry and no other sender is affected.
    The queue is the old one, or, when the frame read was accepted and was
    not an acknowledgement reply, the old one with the packet appended: an
    acknowledgement reply is never queued.  Recording an acknowledgement
    of a sender twice gives the table of recording it once.  The check of a
    waiting [send] returns true and removes the entry when it is present,
    and returns false and changes nothing when it is absent. *)
Theorem pending_acks pin s :
  modes_distinct ->
  (forall s',
     _interruptHandler miso fuel pin s = Ret tt s' ->
     let sender_id := header_byte miso s 3 in
     let accepted := frame_ready miso s && passes_filter s (header_byte miso s 2) in
     let ack_reply := is_ack_reply (header_byte miso s 4) in
     acks s' = (if accepted && ack_reply then setdefault sender_id 1 (acks s)
                else acks s) /\
     packets s' = (if accepted && negb ack_reply
                   then packets s ++ [queued_packet miso s] else packets s) /\
     (accepted && ack_reply = true ->
      entries_for sender_id (acks s') = 1%nat /\
      forall k, k <> sender_id -> acks s' !! k = acks s !! k) /\
     (forall k, (entries_for k (acks s') <= 1)%nat)) /\
  (forall k (table : gmap Z Z),
     setdefault k 1 (setdefault k 1 table) = setdefault k 1 table /\
     entries_for k (setdefault k 1 (setdefault k 1 table)) = 1%nat) /\
  (forall fromNodeID,
     match acks s !! fromNodeID with
     | Some _ =>
         _ACKReceived fromNodeID s
         = Ret true (set_acks (delete fromNodeID (acks s)) s) /\
         entries_for fromNodeID (delete fromNodeID (acks s)) = 0%nat
     | None => _ACKReceived fromNodeID s = Ret false s
     end).
Proof.
  intros Hd. split; [|split].
  - intros s' E. cbv zeta.
    pose proof (interruptHandler_wp false pin s Hd ltac:(discriminate)) as Hw.
    destruct (wp_Ret_inv _ _ _ _ _ Hw E) as (Ht & _ & _).
    unfold handler_tables in Ht.
    destruct (frame_ready miso s && passes_filter s (header_byte miso s 2));
      cbn [andb]; [destruct (is_ack_reply (header_byte miso s 4))|];
      cbn [negb]; injection Ht as Hp Ha; rewrite Hp, Ha.
    all: repeat split; try discriminate.
    all: try (intros k; rewrite entries_for_lookup; destruct (_ !! k); lia).
    + rewrite entries_for_lookup.
      destruct (setdefault_lookup (header_byte miso s 3) (acks s)) as [v ->].
      reflexivity.
    + intros k Hk. apply setdefault_other. exact Hk.
  - intros k table. rewrite setdefault_again. split; [reflexivity|].
    rewrite entries_for_lookup. destruct (setdefault_lookup k table) as [v ->].
    reflexivity.
  - intros k. rewrite ACKReceived_eq. destruct (acks s !! k); [|reflexivity].
    split; [reflexivity|]. rewrite entries_for_lookup, lookup_delete_eq. reflexivity.
Qed.

End HandlerFacts.

(** ** Runs on the register map of the chip *)

Lemma rfm69_modes_distinct : @modes_distinct rfm69.
Proof.
  unfold modes_distinct. apply (bool_decide_unpack _). vm_compute. exact I.
Qed.

Lemma rfm69_opmode_private : @opmode_private rfm69.
Proof. split; discriminate. Qed.

Lemma rfm69_opmode_exclusive : @opmode_exclusive rfm69.
Proof. repeat split; discriminate. Qed.

Lemma chip_with_header_ready hdr : @chip_ready_from rfm69 4 (chip_with_header hdr).
Proof.
  intros k Hk. unfold chip_with_header.
  destruct (Nat.eqb_spec k 3) as [->|_]; [lia|]. split; discriminate.
Qed.

(** C9 on a driver in standby that is told twice to receive. *)
Lemma setMode_twice_witness :
  @opmode_private rfm69 /\
  exists s1,
    @_setMode rfm69 chip_ready_clear 0 3 node7 = Ret tt s1 /\
    @_setMode rfm69 chip_ready_clear 0 3 s1 = Ret tt s1 /\
    @opmode_writes rfm69 (spi_log s1) = 1%nat.
Proof.
  pose proof rfm69_opmode_private as Hp.
  split; [exact Hp|].
  destruct (@setMode_twice rfm69 chip_ready_clear 0 3 node7 Hp) as [Hfirst Hsecond].
  destruct (Hfirst eq_refl) as [s1 E].
  destruct (Hsecond s1 E) as [Hnoop Hcount].
  exists s1. split; [exact E|]. split; [apply Hnoop|exact Hcount].
Defined.

(** C8 on node 7, promiscuous mode off.  A frame for node 9 from node 2
    is dropped and reception resumed; a frame for node 7 that asks for an
    acknowledgement is answered and the handler returns. *)
Lemma address_filter_witness :
  @modes_distinct rfm69 /\ @opmode_exclusive rfm69 /\
  @frame_ready rfm69 (chip_with_header [0; 6; 9; 2; 0]) node7_listening = true /\
  (exists s',
     @_interruptHandler rfm69 (chip_with_header [0; 6; 9; 2; 0]) 0 18 node7_listening
     = Ret tt s' /\
     packets s' = [] /\ acks s' = ∅ /\ mode s' = Some 3 /\ intLock s' = false /\
     spi_log s' = @discard_traffic rfm69 (chip_with_header [0; 6; 9; 2; 0]) node7_listening /\
     @told_to_receive rfm69 (spi_log s')) /\
  @frame_ready rfm69 (chip_with_header [0; 6; 7; 2; 0x40]) node7_listening = true /\
  @reply_due rfm69 (chip_with_header [0; 6; 7; 2; 0x40]) node7_listening = true /\
  @chip_ready_from rfm69 6 (chip_with_header [0; 6; 7; 2; 0x40]) /\
  exists s',
    @_interruptHandler rfm69 (chip_with_header [0; 6; 7; 2; 0x40]) 0 18 node7_listening
    = Ret tt s'.
Proof.
  pose proof rfm69_modes_distinct as Hd.
  pose proof rfm69_opmode_exclusive as Hx.
  assert (Hready : @frame_ready rfm69 (chip_with_header [0; 6; 9; 2; 0])
                     node7_listening = true) by reflexivity.
  assert (Hready' : @frame_ready rfm69 (chip_with_header [0; 6; 7; 2; 0x40])
                      node7_listening = true) by reflexivity.
  assert (Hc : @chip_ready_from rfm69 6 (chip_with_header [0; 6; 7; 2; 0x40])).
  { intros k Hk. apply chip_with_header_ready. lia. }
  split; [exact Hd|]. split; [exact Hx|]. split; [exact Hready|].
  split.
  - destruct (@address_filter rfm69 (chip_with_header [0; 6; 9; 2; 0]) 0 18
                node7_listening Hd Hx Hready) as [Hdrop _].
    exact (Hdrop eq_refl).
  - split; [exact Hready'|]. split; [reflexivity|]. split; [exact Hc|].
    destruct (@address_filter rfm69 (chip_with_header [0; 6; 7; 2; 0x40]) 0 18
                node7_listening Hd Hx Hready') as [_ Hpass].
    destruct (Hpass eq_refl) as (_ & _ & Hret).
    apply Hret. right. exact Hc.
Defined.

(** The same frame is queued when promiscuous mode is on. *)
Example frame_for_node_9_promiscuous :
  exists s',
    @_interruptHandler rfm69 (chip_with_header [0; 6; 9; 2; 0]) 0 18 node7_promiscuous
    = Ret tt s' /\
    packets s' = [mkPacket 9 2 (-128) [255; 255; 255]] /\ mode s' = Some 3.
Proof. eexists. split; [vm_compute; reflexivity|]. split; reflexivity. Qed.

(** C7 on node 7 and an acknowledgement reply from node 2: one entry for
    node 2, nothing queued. *)
Lemma pending_acks_witness :
  @modes_distinct rfm69 /\
  exists s',
    @_interruptHandler rfm69 (chip_with_header [0; 3; 7; 2; 0x80]) 0 18 node7_listening
    = Ret tt s' /\
    acks s' = setdefault 2 1 ∅ /\ packets s' = [] /\ entries_for 2 (acks s') = 1%nat.
Proof.
  pose proof rfm69_modes_distinct as Hd.
  split; [exact Hd|].
  assert (E : exists s',
             @_interruptHandler rfm69 (chip_with_header [0; 3; 7; 2; 0x80]) 0 18
               node7_listening = Ret tt s')
    by (eexists; vm_compute; reflexivity).
  destruct E as [s' E]. exists s'. split; [exact E|].
  destruct (@pending_acks rfm69 (chip_with_header [0; 3; 7; 2; 0x80]) 0 18
              node7_listening Hd) as [Hhandler _].
  destruct (Hhandler s' E) as (Ha & Hp & Hone & _).
  split; [exact Ha|]. split; [exact Hp|]. exact (proj1 (Hone eq_refl)).
Defined.

(** Transmit power within range: the sibling case of C4. *)
Example set_power_level_70 :
  exists s',
    @set_power_level rfm69 chip_ready_clear 70 node7 = Ret tt s' /\
    powerLevel s' = 22 /\ spi_log s' = [[0x11; 0]; [0x91; 0xF6]].
Proof. eexists. split; [reflexivity|]. split; reflexivity. Qed.

(** The sibling setter checks its range. *)
Example set_network_255 :
  @set_network rfm69 chip_ready_clear 255 node7 = Raise AssertionError node7.
Proof. reflexivity. Qed.

(** C4.  A power of 200 percent is not rejected: the call returns, stores
    the level 62, which does not fit five bits, and writes it over a
    register that read 0: bit 5, one of the upper three, is now set. *)
Theorem set_power_level_takes_200 :
  exists s',
    @set_power_level rfm69 chip_zero 200 node7 = Ret tt s' /\
    powerLevel s' = 62 /\
    spi_log s' = [[0x11; 0]; [0x91; 62]] /\
    Z.land (chip_zero 0%nat 1%nat mod 256) 0xE0 = 0 /\
    Z.land 62 0xE0 = 0x20.
Proof. eexists. split; [reflexivity|]. repeat split. Qed.

(** C1.  [broadcast] of the two bytes of "Hi" while no node answers: the
    underlying [send] returns [False], not [None], after three
    transmissions, and every frame asks for an acknowledgement (control
    byte 0x40). *)
Theorem broadcast_asks_for_ack_and_retries :
  let frame := [0x80; 5; 255; 7; 0x40; 72; 105] in
  (exists s',
     @send rfm69 chip_ready_clear clock_ms 1 255 [72; 105]
       (mkSendKwargs None None (Some false)) node7 = Ret (Some false) s' /\
     @frames_sent rfm69 (spi_log s') = [frame; frame; frame]) /\
  (exists s',
     @broadcast rfm69 chip_ready_clear clock_ms 1 [72; 105] node7 = Ret tt s' /\
     @frames_sent rfm69 (spi_log s') = [frame; frame; frame]) /\
  control_byte frame = 0x40.
Proof.
  cbv zeta. split; [|split].
  - eexists. split; vm_compute; reflexivity.
  - eexists. split; vm_compute; reflexivity.
  - reflexivity.
Qed.

(** C2.  [send(5, [1, 2, 3], attempts=1, require_ack=False)]: the call
    returns [None], and the one frame it transmitted has the
    acknowledgement-request bit set. *)
Theorem send_without_ack_asks_for_ack :
  exists s',
    @send rfm69 chip_ready_clear clock_ms 0 5 [1; 2; 3]
      (mkSendKwargs (Some 1) None (Some false)) node7 = Ret None s' /\
    @frames_sent rfm69 (spi_log s') = [[0x80; 6; 5; 7; 0x40; 1; 2; 3]] /\
    Z.land (control_byte [0x80; 6; 5; 7; 0x40; 1; 2; 3]) 0x40 = 0x40.
Proof. eexists. split; [|split]; vm_compute; reflexivity. Qed.

(** On a busy channel the check of [send_ack] fails and leaves the driver
    listening. *)
Lemma busy_canSend fuel s :
  mode s = Some 3 ->
  exists s', @_canSend rfm69 chip_ready_busy fuel s = Ret false s' /\ mode s' = Some 3.
Proof.
  intros Hm. unfold _canSend, bind, gets. rewrite Hm. cbn.
  eexists. split; [reflexivity|]. cbn. exact Hm.
Qed.

Lemma send_ack_busy_loop fuel0 fuel s :
  mode s = Some 3 ->
  while fuel (clear <- @_canSend rfm69 chip_ready_busy fuel0 ;; ret (negb clear))
    (_ <- has_received_packet ;; ret tt) s = OutOfFuel.
Proof.
  revert s. induction fuel as [|n IH]; intros s Hm;
    destruct (busy_canSend fuel0 s Hm) as (s' & E & Hm');
    rewrite while_unfold; unfold bind at 1; unfold bind at 1; rewrite E; cbn.
  - reflexivity.
  - unfold bind at 1. cbn. apply IH. exact Hm'.
Qed.

(** C5.  While the driver listens and the channel stays busy, the loop of
    [send_ack] never ends, whatever the number of iterations allowed and
    without any clock: the frame is never sent.  In the same world the
    loop of [_send] gives up once the clock has passed the limit of one
    second, and the frame is sent. *)
Theorem send_ack_waits_for_ever :
  (forall fuel, @send_ack rfm69 chip_ready_busy fuel 5 [] node7_listening = OutOfFuel) /\
  (exists s',
     @_send rfm69 chip_ready_busy clock_100ms 9 5 [1] false node7_listening = Ret tt s' /\
     @frames_sent rfm69 (spi_log s') = [[0x80; 4; 5; 7; 0; 1]]).
Proof.
  split.
  - intros fuel. unfold send_ack. unfold bind at 1.
    rewrite send_ack_busy_loop; reflexivity.
  - eexists. split; vm_compute; reflexivity.
Qed.

(** * Further properties *)

(** ** Listen-mode timing, continued *)

Section ListenMore.
Context `{Registers}.









End ListenMore.

(** ** Receiving, continued *)


Section ReceiveMore.
Context `{Registers}.
Variable miso : nat -> nat -> Z.
Variable fuel : nat.







End ReceiveMore.






